(** * Merchant Risk Review Workbench: the review queue and the review upsert

    A shallow embedding of the three SQL statements issued by
    [Merchant_Risk_Model_App.py] and of the form handler that issues the
    MERGE, with the properties of the queue selection, of the weekly
    analytics and of the upsert proved against it.

    Tables are lists of rows in scan order (duplicates and order matter to
    ROW_NUMBER, COUNT and ORDER BY).  Timestamps are seconds and dates are
    days since the epoch.  A column that the application can leave without
    a value is an [option]. *)

From Stdlib Require Import ZArith List String Ascii Bool Lia Sorted Permutation.
Import ListNotations.
Open Scope Z_scope.

(** ** SQL values *)

Definition Timestamp := Z.
Definition Date := Z.

Definition seconds_per_day : Z := 86400.

(** A DATE compared with a TIMESTAMP is taken at midnight. *)
Definition date_to_timestamp (d : Date) : Timestamp := d * seconds_per_day.

(** [CURRENT_DATE()] at the instant [now]; [DATEADD(day, n, d)]. *)
Definition CURRENT_DATE (now : Timestamp) : Date := now / seconds_per_day.
Definition DATEADD_day (n : Z) (d : Date) : Date := d + n.

(** SQL's three-valued logic: [None] is UNKNOWN. *)
Definition sqlbool := option bool.

Definition sql_and (a b : sqlbool) : sqlbool :=
  match a, b with
  | Some false, _ | _, Some false => Some false
  | Some true, Some true => Some true
  | _, _ => None
  end.

Definition sql_or (a b : sqlbool) : sqlbool :=
  match a, b with
  | Some true, _ | _, Some true => Some true
  | Some false, Some false => Some false
  | _, _ => None
  end.

(** A WHERE clause keeps a row only when its condition is TRUE. *)
Definition sql_is_true (a : sqlbool) : bool :=
  match a with Some true => true | _ => false end.

(** The value of [HIGH_RISK_MERCHANT]: the column is "boolean-like", the
    query casts it to a string before it tests it. *)
Inductive FlagValue :=
| FlagNull
| FlagBool (b : bool)
| FlagText (s : string).

(** [x::STRING] *)
Definition cast_STRING (v : FlagValue) : option string :=
  match v with
  | FlagNull => None
  | FlagBool true => Some "true"%string
  | FlagBool false => Some "false"%string
  | FlagText s => Some s
  end.

Definition lower (c : ascii) : ascii :=
  let n := nat_of_ascii c in
  if (Nat.leb 65 n && Nat.leb n 90)%bool then ascii_of_nat (n + 32) else c.

Fixpoint lowercase (s : string) : string :=
  match s with
  | EmptyString => EmptyString
  | String c s' => String (lower c) (lowercase s')
  end.

(** [x ILIKE 'true']: the pattern has no wildcard, so the match is equality
    up to letter case. *)
Definition ILIKE_true (x : option string) : sqlbool :=
  match x with
  | None => None
  | Some s => Some (String.eqb (lowercase s) "true")
  end.

(** ** ORDER BY: a stable sort of the rows in scan order

    [before a b] says that [a] may stand before [b].  Rows whose keys tie
    keep their scan order: this is the model's resolution of the order SQL
    leaves open. *)
Section OrderBy.
Context {A : Type} (before : A -> A -> bool).

Fixpoint insert_row (a : A) (l : list A) : list A :=
  match l with
  | [] => [a]
  | x :: l' => if before a x then a :: l else x :: insert_row a l'
  end.

Definition order_by (l : list A) : list A := fold_right insert_row [] l.
End OrderBy.

(** ** The two tables *)

(** [MERCHANT_RISK_SCORES], alias [s] in the queries. *)
Record RiskRow := {
  s_MERCHANT_DESCRIPTION : string;
  s_RISK_SCORE : Z;
  s_REASON_CODES : string;
  s_WEEK_START_DATE : Date;
  s_HIGH_RISK_MERCHANT : FlagValue
}.

(** [MERCHANT_REVIEW_STATUS], alias [t] in the MERGE.  [REVIEW_DATE] is
    the one column the INSERT branch of the MERGE does not list. *)
Record ReviewRow := {
  t_MERCHANT_DESCRIPTION : string;
  t_WEEK_START_DATE : Date;
  t_STATUS : string;
  t_NOTES : string;
  t_REVIEWER : string;
  t_RISK_SCORE : Z;
  t_REVIEW_DATE : option Timestamp
}.

Definition Reviews := list ReviewRow.

Definition Reviewed_Benign : string := "Reviewed - Benign".
Definition Reviewed_Blocked : string := "Reviewed - Blocked".
Definition Pending_Investigation : string := "Pending Investigation".

(** ** load_review_queue *)

(** A row of the CTE [latest_reviews], alias [r]. *)
Record LatestReview := {
  r_MERCHANT_DESCRIPTION : string;
  r_STATUS : string;
  r_REVIEW_DATE : option Timestamp
}.

Definition select_latest (t : ReviewRow) : LatestReview :=
  {| r_MERCHANT_DESCRIPTION := t_MERCHANT_DESCRIPTION t;
     r_STATUS := t_STATUS t;
     r_REVIEW_DATE := t_REVIEW_DATE t |}.

(** [ORDER BY REVIEW_DATE DESC]: on Snowflake NULL sorts as the greatest
    value, so it comes first in a descending order. *)
Definition review_date_desc (a b : ReviewRow) : bool :=
  match t_REVIEW_DATE a, t_REVIEW_DATE b with
  | None, _ => true
  | Some _, None => false
  | Some x, Some y => y <=? x
  end.

Definition same_merchant (m : string) (t : ReviewRow) : bool :=
  String.eqb (t_MERCHANT_DESCRIPTION t) m.

(** [PARTITION BY MERCHANT_DESCRIPTION]: one partition per distinct value. *)
Definition merchants (tbl : Reviews) : list string :=
  nodup string_dec (map t_MERCHANT_DESCRIPTION tbl).

Definition partition_of (tbl : Reviews) (m : string) : Reviews :=
  filter (same_merchant m) tbl.

(** [SELECT *, ROW_NUMBER() OVER (PARTITION BY ... ORDER BY ...) AS rn] *)
Definition number_rows (p : Reviews) : list (ReviewRow * nat) :=
  combine p (seq 1 (List.length p)).

Definition with_row_number (tbl : Reviews) : list (ReviewRow * nat) :=
  flat_map (fun m => number_rows (order_by review_date_desc (partition_of tbl m)))
           (merchants tbl).

(** [SELECT MERCHANT_DESCRIPTION, STATUS, REVIEW_DATE FROM (...) WHERE rn = 1] *)
Definition latest_reviews (tbl : Reviews) : list LatestReview :=
  map (fun x => select_latest (fst x))
      (filter (fun x => Nat.eqb (snd x) 1) (with_row_number tbl)).

(** [s LEFT JOIN latest_reviews r ON s.MERCHANT_DESCRIPTION = r.MERCHANT_DESCRIPTION] *)
Definition join_on (s : RiskRow) (r : LatestReview) : bool :=
  String.eqb (s_MERCHANT_DESCRIPTION s) (r_MERCHANT_DESCRIPTION r).

Definition left_join (scores : list RiskRow) (latest : list LatestReview)
  : list (RiskRow * option LatestReview) :=
  flat_map (fun s =>
              match filter (join_on s) latest with
              | [] => [(s, None)]
              | rs => map (fun r => (s, Some r)) rs
              end) scores.

(** The columns of [r] in a joined row; all NULL when nothing matched. *)
Definition r_STATUS_of (r : option LatestReview) : option string :=
  option_map r_STATUS r.

Definition r_REVIEW_DATE_of (r : option LatestReview) : option Timestamp :=
  match r with Some x => r_REVIEW_DATE x | None => None end.

Definition sql_is_null {A} (x : option A) : sqlbool :=
  match x with None => Some true | Some _ => Some false end.

Definition sql_eq_string (x : option string) (lit : string) : sqlbool :=
  option_map (fun v => String.eqb v lit) x.

Definition sql_le_timestamp (x : option Timestamp) (y : Timestamp) : sqlbool :=
  option_map (fun v => v <=? y) x.

(** [DATEADD(day, -90, CURRENT_DATE())] *)
Definition cutoff (now : Timestamp) : Timestamp :=
  date_to_timestamp (DATEADD_day (-90) (CURRENT_DATE now)).

Definition where_clause (now : Timestamp) (j : RiskRow * option LatestReview)
  : sqlbool :=
  let '(s, r) := j in
  sql_and
    (ILIKE_true (cast_STRING (s_HIGH_RISK_MERCHANT s)))
    (sql_or
       (sql_or
          (sql_is_null (r_STATUS_of r))
          (sql_and (sql_eq_string (r_STATUS_of r) Reviewed_Benign)
                   (sql_le_timestamp (r_REVIEW_DATE_of r) (cutoff now))))
       (sql_eq_string (r_STATUS_of r) Pending_Investigation)).

(** [ORDER BY s.RISK_SCORE DESC] *)
Definition risk_score_desc (a b : RiskRow * option LatestReview) : bool :=
  s_RISK_SCORE (fst b) <=? s_RISK_SCORE (fst a).

(** The joined rows that pass the WHERE clause, in output order. *)
Definition review_queue_rows (now : Timestamp) (scores : list RiskRow)
           (tbl : Reviews) : list (RiskRow * option LatestReview) :=
  order_by risk_score_desc
           (filter (fun j => sql_is_true (where_clause now j))
                   (left_join scores (latest_reviews tbl))).

(** A row of the result: the four selected columns. *)
Record QueueRow := {
  MERCHANT_DESCRIPTION : string;
  RISK_SCORE : Z;
  REASON_CODES : string;
  WEEK_START_DATE : Date
}.

(** [SELECT s.MERCHANT_DESCRIPTION, s.RISK_SCORE, s.REASON_CODES,
    s.WEEK_START_DATE] *)
Definition select_columns (s : RiskRow) : QueueRow :=
  {| MERCHANT_DESCRIPTION := s_MERCHANT_DESCRIPTION s;
     RISK_SCORE := s_RISK_SCORE s;
     REASON_CODES := s_REASON_CODES s;
     WEEK_START_DATE := s_WEEK_START_DATE s |}.

Definition select_queue (j : RiskRow * option LatestReview) : QueueRow :=
  select_columns (fst j).

Definition load_review_queue (now : Timestamp) (scores : list RiskRow)
           (tbl : Reviews) : list QueueRow :=
  map select_queue (review_queue_rows now scores tbl).

(** The risk rows that make up the queue, before the projection. *)
Definition queued (now : Timestamp) (scores : list RiskRow) (tbl : Reviews)
  : list RiskRow :=
  map fst (review_queue_rows now scores tbl).

(** The merchant's latest review: row number 1 of its partition. *)
Definition latest_review (tbl : Reviews) (m : string) : option ReviewRow :=
  hd_error (order_by review_date_desc (partition_of tbl m)).

(** Row number 1 of a numbered partition is its first row. *)
Definition top_row (tbl : Reviews) (m : string) : list LatestReview :=
  match latest_review tbl m with
  | Some t => [select_latest t]
  | None => []
  end.

(** The row of [latest_reviews] that the join gives a risk row. *)
Definition joined_review (tbl : Reviews) (s : RiskRow) : option LatestReview :=
  option_map select_latest (latest_review tbl (s_MERCHANT_DESCRIPTION s)).

(** [s.HIGH_RISK_MERCHANT::STRING ILIKE 'true'] as a WHERE condition. *)
Definition high_risk_flag (s : RiskRow) : bool :=
  sql_is_true (ILIKE_true (cast_STRING (s_HIGH_RISK_MERCHANT s))).

(** The text 'true' in any letter case, letter by letter. *)
Definition spelled_true (x : string) : Prop :=
  exists c1 c2 c3 c4,
    x = String c1 (String c2 (String c3 (String c4 EmptyString)))
    /\ (c1 = "t" \/ c1 = "T")%char
    /\ (c2 = "r" \/ c2 = "R")%char
    /\ (c3 = "u" \/ c3 = "U")%char
    /\ (c4 = "e" \/ c4 = "E")%char.

(** ** load_monitoring_data *)

(** [DATE_TRUNC('week', d)::DATE]: the Monday on or before [d] (day 0 of
    the epoch is a Thursday). *)
Definition DATE_TRUNC_week (d : Date) : Date := d - (d + 3) mod 7.

Record WeekCount := {
  REVIEW_WEEK : Date;
  STATUS : string;
  MERCHANT_COUNT : nat
}.

(** [GROUP BY 1, 2] *)
Definition group_key (t : ReviewRow) : Date * string :=
  (DATE_TRUNC_week (t_WEEK_START_DATE t), t_STATUS t).

Definition key_eqb (a b : Date * string) : bool :=
  (fst a =? fst b) && String.eqb (snd a) (snd b).

Definition key_dec (a b : Date * string) : {a = b} + {a <> b}.
Proof. decide equality; [apply string_dec | apply Z.eq_dec]. Defined.

Definition group_keys (tbl : Reviews) : list (Date * string) :=
  nodup key_dec (map group_key tbl).

(** [COUNT( * )] of one group. *)
Definition count_rows (tbl : Reviews) (k : Date * string) : nat :=
  List.length (filter (fun t => key_eqb (group_key t) k) tbl).

(** [ORDER BY 1 DESC, 2] *)
Definition week_desc_status_asc (a b : WeekCount) : bool :=
  (REVIEW_WEEK b <? REVIEW_WEEK a)
  || ((REVIEW_WEEK a =? REVIEW_WEEK b) && String.leb (STATUS a) (STATUS b)).

(** One output row: [REVIEW_WEEK, STATUS, COUNT( * ) AS MERCHANT_COUNT]. *)
Definition week_count (tbl : Reviews) (k : Date * string) : WeekCount :=
  {| REVIEW_WEEK := fst k; STATUS := snd k; MERCHANT_COUNT := count_rows tbl k |}.

Definition load_monitoring_data (tbl : Reviews) : list WeekCount :=
  order_by week_desc_status_asc (map (week_count tbl) (group_keys tbl)).

(** ** The review form and the MERGE *)

Definition quote : ascii := "'"%char.
Definition is_quote (c : ascii) : bool := Ascii.eqb c quote.

(** Python's [x.replace("'", "''")]. *)
Fixpoint replace_quote (s : string) : string :=
  match s with
  | EmptyString => EmptyString
  | String c s' =>
      if is_quote c then String quote (String quote (replace_quote s'))
      else String c (replace_quote s')
  end.

(** Line 29: the reviewer identity is escaped once, when it is read. *)
Definition current_user (user : string) : string := replace_quote user.

(** The three options of the "Set Status:" select box. *)
Inductive StatusChoice := Benign | Blocked | Pending.

Definition status_text (c : StatusChoice) : string :=
  match c with
  | Benign => Reviewed_Benign
  | Blocked => Reviewed_Blocked
  | Pending => Pending_Investigation
  end.

(** The literals of a SQL text: a quote opens a literal, two quotes inside
    a literal stand for one, a single quote closes it.  [None] when the
    text ends inside a literal. *)
Fixpoint literals_from (inside : option string) (s : string)
  : option (list string) :=
  match s with
  | EmptyString =>
      match inside with None => Some [] | Some _ => None end
  | String c rest =>
      match inside with
      | None =>
          if is_quote c then literals_from (Some EmptyString) rest
          else literals_from None rest
      | Some acc =>
          if is_quote c then
            match rest with
            | String c' rest' =>
                if is_quote c'
                then literals_from (Some (acc ++ String quote EmptyString)%string) rest'
                else option_map (cons acc) (literals_from None rest)
            | EmptyString => Some [acc]
            end
          else literals_from (Some (acc ++ String c EmptyString)%string) rest
      end
  end.

Definition literals (sql : string) : option (list string) :=
  literals_from None sql.

(** The DDL of [MERCHANT_REVIEW_STATUS] is not part of the repository: the
    DEFAULT of its [REVIEW_DATE] column is a parameter of the model. *)
Inductive ColumnDefault :=
| NoDefault
| DefaultConstant (v : Timestamp)
| DefaultCurrentTimestamp.

Definition default_value (d : ColumnDefault) (now : Timestamp)
  : option Timestamp :=
  match d with
  | NoDefault => None
  | DefaultConstant v => Some v
  | DefaultCurrentTimestamp => Some now
  end.

(** The one-row source [s] of the MERGE, as values. *)
Record MergeSource := {
  src_MERCHANT_DESCRIPTION : string;
  src_STATUS : string;
  src_NOTES : string;
  src_REVIEWER : string;
  src_RISK_SCORE : Z;
  src_WEEK_START_DATE : Date
}.

(** [ON t.MERCHANT_DESCRIPTION = s.MERCHANT_DESCRIPTION
       AND t.WEEK_START_DATE = s.WEEK_START_DATE] *)
Definition merge_on (s : MergeSource) (t : ReviewRow) : bool :=
  String.eqb (t_MERCHANT_DESCRIPTION t) (src_MERCHANT_DESCRIPTION s)
  && (t_WEEK_START_DATE t =? src_WEEK_START_DATE s).

(** [WHEN MATCHED THEN UPDATE SET t.STATUS = s.STATUS, t.NOTES = s.NOTES,
     t.REVIEWER = s.REVIEWER, t.REVIEW_DATE = CURRENT_TIMESTAMP()] *)
Definition when_matched (now : Timestamp) (s : MergeSource) (t : ReviewRow)
  : ReviewRow :=
  {| t_MERCHANT_DESCRIPTION := t_MERCHANT_DESCRIPTION t;
     t_WEEK_START_DATE := t_WEEK_START_DATE t;
     t_STATUS := src_STATUS s;
     t_NOTES := src_NOTES s;
     t_REVIEWER := src_REVIEWER s;
     t_RISK_SCORE := t_RISK_SCORE t;
     t_REVIEW_DATE := Some now |}.

(** [WHEN NOT MATCHED THEN INSERT (MERCHANT_DESCRIPTION, STATUS, NOTES,
     REVIEWER, RISK_SCORE, WEEK_START_DATE) VALUES (...)]: [REVIEW_DATE] is
    not in the column list and takes the column's default. *)
Definition when_not_matched (dflt : ColumnDefault) (now : Timestamp)
           (s : MergeSource) : ReviewRow :=
  {| t_MERCHANT_DESCRIPTION := src_MERCHANT_DESCRIPTION s;
     t_WEEK_START_DATE := src_WEEK_START_DATE s;
     t_STATUS := src_STATUS s;
     t_NOTES := src_NOTES s;
     t_REVIEWER := src_REVIEWER s;
     t_RISK_SCORE := src_RISK_SCORE s;
     t_REVIEW_DATE := default_value dflt now |}.

(** What the MERGE does to one row of the target. *)
Definition update_matched (now : Timestamp) (s : MergeSource) (t : ReviewRow)
  : ReviewRow :=
  if merge_on s t then when_matched now s t else t.

Definition MERGE (dflt : ColumnDefault) (now : Timestamp) (s : MergeSource)
           (tbl : Reviews) : Reviews :=
  if existsb (merge_on s) tbl
  then map (update_matched now s) tbl
  else tbl ++ [when_not_matched dflt now s].

(** What the handler does besides changing the table. *)
Inductive Effect :=
| st_error (msg : string)
| st_success (msg : string)
| con_execute (sql : string)
| con_commit
| cache_data_clear
| st_rerun.

Section ReviewForm.
(** Python's [str()] of the RISK_SCORE and WEEK_START_DATE cells. *)
Variable str_score : Z -> string.
Variable str_date : Date -> string.

Local Open Scope string_scope.

Definition nl : string := String (ascii_of_nat 10) EmptyString.
Definition q : string := String quote EmptyString.

(** The f-string of lines 135-149, leading indentation left out.
    [user] is [current_user], already escaped. *)
Definition merge_sql (merchant_details : QueueRow) (status : StatusChoice)
           (notes user : string) : string :=
  nl ++ "MERGE INTO ANALYTICS_TEAM.TEAM_ANALYTICS_BI.MERCHANT_REVIEW_STATUS t"
     ++ nl ++ "USING (" ++ nl ++ "SELECT " ++ nl
     ++ q ++ replace_quote (MERCHANT_DESCRIPTION merchant_details) ++ q
     ++ (" AS MERCHANT_DESCRIPTION," ++ nl)
     ++ q ++ status_text status ++ q
     ++ (" AS STATUS," ++ nl)
     ++ q ++ replace_quote notes ++ q
     ++ (" AS NOTES," ++ nl)
     ++ q ++ user ++ q
     ++ (" AS REVIEWER," ++ nl)
     ++ str_score (RISK_SCORE merchant_details)
     ++ (" AS RISK_SCORE," ++ nl)
     ++ q ++ str_date (WEEK_START_DATE merchant_details) ++ q
     ++ (" AS WEEK_START_DATE" ++ nl ++ ") s" ++ nl
     ++ "ON t.MERCHANT_DESCRIPTION = s.MERCHANT_DESCRIPTION AND t.WEEK_START_DATE = s.WEEK_START_DATE"
     ++ nl
     ++ "WHEN MATCHED THEN UPDATE SET t.STATUS = s.STATUS, t.NOTES = s.NOTES, t.REVIEWER = s.REVIEWER, t.REVIEW_DATE = CURRENT_TIMESTAMP()"
     ++ nl
     ++ "WHEN NOT MATCHED THEN INSERT (MERCHANT_DESCRIPTION, STATUS, NOTES, REVIEWER, RISK_SCORE, WEEK_START_DATE) VALUES (s.MERCHANT_DESCRIPTION, s.STATUS, s.NOTES, s.REVIEWER, s.RISK_SCORE, s.WEEK_START_DATE);"
     ++ nl).

(** The values the statement's source row carries. *)
Definition merge_source (merchant_details : QueueRow)
           (status : StatusChoice) (notes user : string) : MergeSource :=
  {| src_MERCHANT_DESCRIPTION := MERCHANT_DESCRIPTION merchant_details;
     src_STATUS := status_text status;
     src_NOTES := notes;
     src_REVIEWER := user;
     src_RISK_SCORE := RISK_SCORE merchant_details;
     src_WEEK_START_DATE := WEEK_START_DATE merchant_details |}.

(** The body of [if submitted:] (lines 129-156) on the values of the
    form, as it runs when the statement reaches the table as it was
    written; [review_form_submit] below takes the statement through
    [text()] and the engine's reading of its literals first.  [user] is
    the result of [SELECT CURRENT_USER()]; [status] is [None] while the
    select box shows its placeholder. *)
Definition submit_review (dflt : ColumnDefault) (now : Timestamp)
           (user : string) (merchant_details : QueueRow)
           (status : option StatusChoice) (notes : string)
           (tbl : Reviews) : Reviews * list Effect :=
  match status with
  | None => (tbl, [st_error "Please select a status."])
  | Some st =>
      (MERGE dflt now (merge_source merchant_details st notes user) tbl,
       [con_execute (merge_sql merchant_details st notes (current_user user));
        con_commit;
        st_success ("Status for '" ++ MERCHANT_DESCRIPTION merchant_details
                    ++ "' updated to '" ++ status_text st ++ "'!");
        cache_data_clear;
        st_rerun])
  end.
End ReviewForm.

(** The composite key of [MERCHANT_REVIEW_STATUS]. *)
Definition has_key (m : string) (w : Date) (t : ReviewRow) : bool :=
  String.eqb (t_MERCHANT_DESCRIPTION t) m && (t_WEEK_START_DATE t =? w).



(** One press of "Submit Review". *)
Record Submission := {
  sub_now : Timestamp;
  sub_user : string;
  sub_details : QueueRow;
  sub_status : option StatusChoice;
  sub_notes : string
}.

Fixpoint quote_free (s : string) : bool :=
  match s with
  | EmptyString => true
  | String c s' => negb (is_quote c) && quote_free s'
  end.

Definition starts_with_quote (s : string) : bool :=
  match s with
  | EmptyString => false
  | String c _ => is_quote c
  end.

Definition contains (sub s : string) : Prop :=
  exists a b, s = (a ++ sub ++ b)%string.

(** The entry of the scenario of the specification: Acme Co, score 91,
    week of 2024-01-01 (day 19723). *)
Definition acme_entry : QueueRow :=
  {| MERCHANT_DESCRIPTION := "Acme Co";
     RISK_SCORE := 91;
     REASON_CODES := "velocity";
     WEEK_START_DATE := 19723 |}.

Definition acme_risk : RiskRow :=
  {| s_MERCHANT_DESCRIPTION := "Acme Co";
     s_RISK_SCORE := 91;
     s_REASON_CODES := "velocity";
     s_WEEK_START_DATE := 19723;
     s_HIGH_RISK_MERCHANT := FlagBool true |}.

Definition acme_review (status : string) (score : Z)
           (review_date : option Timestamp) : ReviewRow :=
  {| t_MERCHANT_DESCRIPTION := "Acme Co";
     t_WEEK_START_DATE := 19723;
     t_STATUS := status;
     t_NOTES := "first look";
     t_REVIEWER := "ANALYST";
     t_RISK_SCORE := score;
     t_REVIEW_DATE := review_date |}.

Definition globex_risk : RiskRow :=
  {| s_MERCHANT_DESCRIPTION := "Globex";
     s_RISK_SCORE := 95;
     s_REASON_CODES := "chargebacks";
     s_WEEK_START_DATE := 19723;
     s_HIGH_RISK_MERCHANT := FlagText "TRUE" |}.


(** Day 20000 at 01:00; 90 days earlier at midnight is 1720224000. *)
Definition day_20000 : Timestamp := 1728003600.

Definition first_submission : Submission :=
  {| sub_now := 1704103200;
     sub_user := "ANALYST";
     sub_details := acme_entry;
     sub_status := Some Pending;
     sub_notes := "asked for documents" |}.


Definition str_91 (_ : Z) : string := "91".
Definition str_2024_01_01 (_ : Date) : string := "2024-01-01".

(** ** The statement on its way to the table

    Text is taken as ASCII. *)

Definition backslash : ascii := ascii_of_nat 92.
Definition colon : ascii := ":"%char.
Definition is_backslash (c : ascii) : bool := Ascii.eqb c backslash.
Definition is_colon (c : ascii) : bool := Ascii.eqb c colon.

(** A word character: a letter, a digit or the underscore. *)
Definition is_word (c : ascii) : bool :=
  let n := nat_of_ascii c in
  (Nat.leb 48 n && Nat.leb n 57) || (Nat.leb 65 n && Nat.leb n 90)
  || (Nat.leb 97 n && Nat.leb n 122) || Nat.eqb n 95.

(** [sqlalchemy.text()] (line 135) takes a colon followed by a name for a
    bind parameter, unless the colon comes after a colon, a word
    character or a backslash, or the name is followed by a colon.  A
    name of two or more characters always matches: the pattern gives up
    its last character to get past a following colon. *)
Definition bind_blocked (prev : option ascii) : bool :=
  match prev with
  | None => false
  | Some p => is_colon p || is_word p || is_backslash p
  end.

Definition bind_name_follows (rest : string) : bool :=
  match rest with
  | EmptyString => false
  | String w1 rest1 =>
      is_word w1
      && match rest1 with
         | EmptyString => true
         | String c2 _ => is_word c2 || negb (is_colon c2)
         end
  end.

Fixpoint bind_param_from (prev : option ascii) (s : string) : bool :=
  match s with
  | EmptyString => false
  | String c rest =>
      (is_colon c && negb (bind_blocked prev) && bind_name_follows rest)
      || bind_param_from (Some c) rest
  end.

Definition text_bind_params (sql : string) : bool := bind_param_from None sql.


Fixpoint colon_free (s : string) : bool :=
  match s with
  | EmptyString => true
  | String c s' => negb (is_colon c) && colon_free s'
  end.

(** The statement as Snowflake reads it: text outside literals, and
    literals.  Inside a literal two quotes stand for one and a backslash
    starts an escape sequence that takes the next character with it, a
    quote included.  What an escape sequence decodes to is the engine's:
    a literal that holds one keeps its text as written and is marked. *)
Inductive Token :=
| Outside (text : string)
| Literal (value : string) (escapes : bool).

Definition Token_eq_dec (a b : Token) : {a = b} + {a <> b}.
Proof. decide equality; (apply string_dec || apply bool_dec). Defined.

Fixpoint snowflake_tokens_from (inside : bool) (acc : string) (esc : bool)
         (s : string) : option (list Token) :=
  match s with
  | EmptyString => if inside then None else Some [Outside acc]
  | String c rest =>
      if inside then
        if is_quote c then
          match rest with
          | String c' rest' =>
              if is_quote c'
              then snowflake_tokens_from
                     true (acc ++ String quote EmptyString)%string esc rest'
              else option_map (cons (Literal acc esc))
                              (snowflake_tokens_from false EmptyString false rest)
          | EmptyString => Some [Literal acc esc; Outside EmptyString]
          end
        else if is_backslash c then
          match rest with
          | String c' rest' =>
              snowflake_tokens_from
                true (acc ++ String c (String c' EmptyString))%string true rest'
          | EmptyString => None
          end
        else snowflake_tokens_from
               true (acc ++ String c EmptyString)%string esc rest
      else
        if is_quote c
        then option_map (cons (Outside acc))
                        (snowflake_tokens_from true EmptyString false rest)
        else snowflake_tokens_from
               false (acc ++ String c EmptyString)%string false rest
  end.

Definition snowflake_tokens (sql : string) : option (list Token) :=
  snowflake_tokens_from false EmptyString false sql.

(** How a press of "Submit Review" ends. *)
Inductive Run :=
| Completes (tbl' : Reviews) (effects : list Effect)
| Raises (tbl' : Reviews)
| EngineDecides.

Section ReviewFormRun.
Variable str_score : Z -> string.
Variable str_date : Date -> string.

Local Open Scope string_scope.

(** The fixed text of the statement between its literals. *)
Definition sql_head : string :=
  nl ++ "MERGE INTO ANALYTICS_TEAM.TEAM_ANALYTICS_BI.MERCHANT_REVIEW_STATUS t"
     ++ nl ++ "USING (" ++ nl ++ "SELECT " ++ nl.

Definition as_MERCHANT_DESCRIPTION : string := " AS MERCHANT_DESCRIPTION," ++ nl.
Definition as_STATUS : string := " AS STATUS," ++ nl.
Definition as_NOTES : string := " AS NOTES," ++ nl.

Definition as_REVIEWER_RISK_SCORE (merchant_details : QueueRow) : string :=
  " AS REVIEWER," ++ nl ++ str_score (RISK_SCORE merchant_details)
                  ++ " AS RISK_SCORE," ++ nl.

Definition sql_tail : string :=
  " AS WEEK_START_DATE" ++ nl ++ ") s" ++ nl
  ++ "ON t.MERCHANT_DESCRIPTION = s.MERCHANT_DESCRIPTION AND t.WEEK_START_DATE = s.WEEK_START_DATE"
  ++ nl
  ++ "WHEN MATCHED THEN UPDATE SET t.STATUS = s.STATUS, t.NOTES = s.NOTES, t.REVIEWER = s.REVIEWER, t.REVIEW_DATE = CURRENT_TIMESTAMP()"
  ++ nl
  ++ "WHEN NOT MATCHED THEN INSERT (MERCHANT_DESCRIPTION, STATUS, NOTES, REVIEWER, RISK_SCORE, WEEK_START_DATE) VALUES (s.MERCHANT_DESCRIPTION, s.STATUS, s.NOTES, s.REVIEWER, s.RISK_SCORE, s.WEEK_START_DATE);"
  ++ nl.

(** The statement the f-string means: the fixed text around five literals
    that hold the values of the form and no escape sequence. *)
Definition written_tokens (merchant_details : QueueRow) (status : StatusChoice)
           (notes user : string) : list Token :=
  [Outside sql_head;
   Literal (MERCHANT_DESCRIPTION merchant_details) false;
   Outside as_MERCHANT_DESCRIPTION;
   Literal (status_text status) false;
   Outside as_STATUS;
   Literal notes false;
   Outside as_NOTES;
   Literal user false;
   Outside (as_REVIEWER_RISK_SCORE merchant_details);
   Literal (str_date (WEEK_START_DATE merchant_details)) false;
   Outside sql_tail].

(** Lines 129-156 with the statement taken through [text()] and the
    engine.  With a bind parameter in the text [con.execute] raises for
    want of its value: nothing is written or committed.  When the engine
    reads the statement as it was meant, the MERGE runs on the values of
    the form.  Otherwise a literal holds an escape sequence or ends where
    it was not meant to, and what is executed, if anything, is the
    engine's to say. *)
Definition review_form_submit (dflt : ColumnDefault) (now : Timestamp)
           (user : string) (merchant_details : QueueRow)
           (status : option StatusChoice) (notes : string)
           (tbl : Reviews) : Run :=
  let done := submit_review str_score str_date dflt now user merchant_details
                            status notes tbl in
  match status with
  | None => Completes (fst done) (snd done)
  | Some st =>
      let sql := merge_sql str_score str_date merchant_details st notes
                           (current_user user) in
      if text_bind_params sql then Raises tbl
      else
        match snowflake_tokens sql with
        | Some toks =>
            if list_eq_dec Token_eq_dec toks
                           (written_tokens merchant_details st notes user)
            then Completes (fst done) (snd done)
            else EngineDecides
        | None => EngineDecides
        end
  end.

End ReviewFormRun.

(** The table a run ends with, when the run says. *)
Definition table_after (r : Run) : option Reviews :=
  match r with
  | Completes tbl' _ => Some tbl'
  | Raises tbl' => Some tbl'
  | EngineDecides => None
  end.

(** Notes that reach [text()] with a bind parameter, and notes that end a
    literal early. *)
Definition notes_with_colon : string := "see :ticket".
Definition notes_with_backslash : string :=
  String backslash (String quote EmptyString).

Definition third_submission : Submission :=
  {| sub_now := 1704276000;
     sub_user := "ANALYST";
     sub_details := acme_entry;
     sub_status := Some Benign;
     sub_notes := notes_with_colon |}.






(** ** The page around the two queries *)

(** A pivoted frame: row labels, column labels and the cells row by row. *)
Record Pivot (V : Type) := {
  pivot_index : list Date;
  pivot_columns : list string;
  pivot_values : list (list V)
}.
Arguments pivot_index {V} _.
Arguments pivot_columns {V} _.
Arguments pivot_values {V} _.

Fixpoint duplicated (l : list (Date * string)) : bool :=
  match l with
  | [] => false
  | k :: l' => existsb (key_eqb k) l' || duplicated l'
  end.

Definition pivot_key (x : WeekCount) : Date * string :=
  (REVIEW_WEEK x, STATUS x).

(** pandas' [df.pivot(index='REVIEW_WEEK', columns='STATUS',
    values='MERCHANT_COUNT')]: labels sorted and distinct, a cell without
    a row missing; a ValueError ([None]) when two rows share their
    (index, column) pair. *)
Definition pivot (df : list WeekCount) : option (Pivot (option nat)) :=
  if duplicated (map pivot_key df) then None
  else
    let idx := order_by Z.leb (nodup Z.eq_dec (map REVIEW_WEEK df)) in
    let cols := order_by String.leb (nodup string_dec (map STATUS df)) in
    Some {| pivot_index := idx;
            pivot_columns := cols;
            pivot_values :=
              map (fun w =>
                     map (fun c =>
                            option_map MERCHANT_COUNT
                                       (find (fun x => key_eqb (pivot_key x) (w, c)) df))
                         cols)
                  idx |}.

(** [.fillna(v)] *)
Definition fillna (v : nat) (p : Pivot (option nat)) : Pivot nat :=
  {| pivot_index := pivot_index p;
     pivot_columns := pivot_columns p;
     pivot_values :=
       map (map (fun cell => match cell with Some n => n | None => v end))
           (pivot_values p) |}.

(** Lines 52-63: what the analytics section shows. *)
Inductive Totals :=
| NoReviewData
| TotalsByWeek (pivot_df : Pivot nat)
| PivotError.

Definition review_totals (monitor_df : list WeekCount) : Totals :=
  match monitor_df with
  | [] => NoReviewData
  | _ :: _ =>
      match pivot monitor_df with
      | Some p => TotalsByWeek (fillna 0 p)
      | None => PivotError
      end
  end.

(** pandas' [Series.unique()]: the first occurrence of each value, in
    order of appearance. *)
Fixpoint unique (l : list string) : list string :=
  match l with
  | [] => []
  | x :: l' => x :: filter (fun y => negb (String.eqb y x)) (unique l')
  end.

(** Line 114: the options of the merchant select box. *)
Definition merchant_options (review_df : list QueueRow) : list string :=
  unique (map MERCHANT_DESCRIPTION review_df).

(** Line 117: [review_df[review_df['MERCHANT_DESCRIPTION'] ==
    selected_merchant].iloc[0]]; [None] is the IndexError of an empty
    selection. *)
Definition merchant_details (review_df : list QueueRow)
           (selected_merchant : string) : option QueueRow :=
  hd_error (filter (fun r => String.eqb (MERCHANT_DESCRIPTION r) selected_merchant)
                   review_df).

(** The WHERE clause on the joined row of a risk row. *)
Definition qualifies (now : Timestamp) (tbl : Reviews) (s : RiskRow) : bool :=
  sql_is_true (where_clause now (s, joined_review tbl s)).

(** [SUM(MERCHANT_COUNT)] over the analytics. *)
Definition total_count (df : list WeekCount) : nat :=
  fold_right (fun x n => (MERCHANT_COUNT x + n)%nat) 0%nat df.

(** * Properties *)

(** ** The stable sort *)
Section OrderByFacts.
Context {A : Type} (before : A -> A -> bool).

Lemma insert_row_perm (a : A) (l : list A) :
  Permutation (insert_row before a l) (a :: l).
Proof.
  induction l as [|x l IH]; simpl; [reflexivity|].
  destruct (before a x); [reflexivity|].
  rewrite IH. apply perm_swap.
Qed.

Lemma order_by_perm (l : list A) : Permutation (order_by before l) l.
Proof.
  induction l as [|a l IH]; simpl; [constructor|].
  rewrite insert_row_perm. now constructor.
Qed.

Lemma order_by_In (l : list A) (x : A) : In x (order_by before l) <-> In x l.
Proof.
  split; apply Permutation_in;
    [apply order_by_perm | symmetry; apply order_by_perm].
Qed.

Lemma order_by_length (l : list A) :
  List.length (order_by before l) = List.length l.
Proof. apply Permutation_length, order_by_perm. Qed.

Hypothesis before_total : forall a b, before a b = false -> before b a = true.

Lemma insert_row_sorted (a : A) (l : list A) :
  Sorted (fun x y => before x y = true) l ->
  Sorted (fun x y => before x y = true) (insert_row before a l).
Proof.
  induction 1 as [|x l Hs IH Hd]; simpl.
  - repeat constructor.
  - destruct (before a x) eqn:E.
    + constructor; [now constructor | now constructor].
    + constructor; [exact IH|].
      destruct Hd as [|y l' Hxy]; simpl.
      * constructor. now apply before_total.
      * destruct (before a y); constructor; auto.
Qed.

Lemma order_by_sorted (l : list A) :
  Sorted (fun x y => before x y = true) (order_by before l).
Proof.
  induction l as [|a l IH]; simpl; [constructor|].
  now apply insert_row_sorted.
Qed.

Hypothesis before_trans :
  forall a b c, before a b = true -> before b c = true -> before a c = true.

(** The first row of the sorted list stands before every row. *)
Lemma order_by_head (l : list A) (h : A) :
  hd_error (order_by before l) = Some h ->
  forall x, In x l -> before h x = true.
Proof.
  intros Hh x Hx.
  assert (Hs : StronglySorted (fun x y => before x y = true) (order_by before l)).
  { apply Sorted_StronglySorted; [|apply order_by_sorted].
    intros a b c. apply before_trans. }
  apply order_by_In in Hx.
  destruct (order_by before l) as [|h' r]; [discriminate|].
  simpl in Hh. injection Hh as ->.
  destruct Hx as [<-|Hx].
  - destruct (before h h) eqn:E; [reflexivity|].
    now rewrite (before_total _ _ E) in E.
  - apply StronglySorted_inv in Hs as [_ Hall].
    rewrite Forall_forall in Hall. now apply Hall.
Qed.
End OrderByFacts.

(** Adjacent rows of a sorted list are in order. *)
Lemma Sorted_adjacent {A} (R : A -> A -> Prop) (l : list A) :
  Sorted R l ->
  forall i a b, nth_error l i = Some a -> nth_error l (S i) = Some b -> R a b.
Proof.
  induction 1 as [|x l Hs IH Hd]; intros i a b Ha Hb.
  - destruct i; discriminate.
  - destruct i as [|i]; simpl in Ha, Hb.
    + injection Ha as <-. destruct Hd as [|y l' Hxy]; [discriminate|].
      simpl in Hb. now injection Hb as <-.
    + eapply IH; eauto.
Qed.

(** ** Latest review per merchant *)

Lemma review_date_desc_total a b :
  review_date_desc a b = false -> review_date_desc b a = true.
Proof.
  unfold review_date_desc.
  destruct (t_REVIEW_DATE a), (t_REVIEW_DATE b); try easy.
  rewrite Z.leb_gt, Z.leb_le. lia.
Qed.

Lemma review_date_desc_trans a b c :
  review_date_desc a b = true -> review_date_desc b c = true ->
  review_date_desc a c = true.
Proof.
  unfold review_date_desc.
  destruct (t_REVIEW_DATE a), (t_REVIEW_DATE b), (t_REVIEW_DATE c); try easy.
  rewrite !Z.leb_le. lia.
Qed.

Lemma partition_of_In tbl m t :
  In t (partition_of tbl m) <-> In t tbl /\ t_MERCHANT_DESCRIPTION t = m.
Proof.
  unfold partition_of, same_merchant. rewrite filter_In, String.eqb_eq. tauto.
Qed.

Lemma latest_review_In tbl m t :
  latest_review tbl m = Some t -> In t tbl /\ t_MERCHANT_DESCRIPTION t = m.
Proof.
  unfold latest_review. intros H.
  apply partition_of_In, (order_by_In review_date_desc).
  destruct (order_by _ _); [discriminate|].
  simpl in H. injection H as ->. now left.
Qed.

Lemma latest_review_max tbl m t :
  latest_review tbl m = Some t ->
  forall t', In t' tbl -> t_MERCHANT_DESCRIPTION t' = m ->
             review_date_desc t t' = true.
Proof.
  intros H t' Hin Hm.
  eapply order_by_head; eauto using review_date_desc_total, review_date_desc_trans.
  now apply partition_of_In.
Qed.

Lemma latest_review_None tbl m :
  latest_review tbl m = None <->
  forall t, In t tbl -> t_MERCHANT_DESCRIPTION t <> m.
Proof.
  unfold latest_review. split.
  - intros H t Hin Hm.
    assert (Hp : In t (order_by review_date_desc (partition_of tbl m))).
    { apply order_by_In, partition_of_In. now split. }
    destruct (order_by _ _); [easy | discriminate].
  - intros H.
    destruct (order_by _ _) as [|t r] eqn:E; [reflexivity|].
    exfalso.
    assert (Hp : In t (order_by review_date_desc (partition_of tbl m)))
      by (rewrite E; now left).
    apply order_by_In, partition_of_In in Hp as [Hin Hm]. now apply (H t).
Qed.

Lemma rn_above_1 (p : Reviews) (k : nat) :
  (2 <= k)%nat ->
  filter (fun x : ReviewRow * nat => Nat.eqb (snd x) 1)
         (combine p (seq k (List.length p))) = [].
Proof.
  revert k. induction p as [|t p IH]; intros k Hk; simpl; [reflexivity|].
  destruct (Nat.eqb_spec k 1); [lia|]. apply IH. lia.
Qed.

Lemma rn_1_number_rows (p : Reviews) :
  map (fun x => select_latest (fst x))
      (filter (fun x => Nat.eqb (snd x) 1) (number_rows p))
  = match hd_error p with Some t => [select_latest t] | None => [] end.
Proof.
  unfold number_rows. destruct p as [|t p]; simpl; [reflexivity|].
  now rewrite rn_above_1.
Qed.

Lemma latest_reviews_top (tbl : Reviews) :
  latest_reviews tbl = flat_map (top_row tbl) (merchants tbl).
Proof.
  unfold latest_reviews, with_row_number.
  induction (merchants tbl) as [|m l IH]; simpl; [reflexivity|].
  rewrite filter_app, map_app, IH. f_equal. apply rn_1_number_rows.
Qed.

Lemma top_row_merchant tbl m r :
  In r (top_row tbl m) -> r_MERCHANT_DESCRIPTION r = m.
Proof.
  unfold top_row. destruct (latest_review tbl m) as [t|] eqn:E; [|easy].
  intros [<-|[]]. simpl. now apply latest_review_In in E.
Qed.

Lemma filter_top_row_other tbl m m' :
  m' <> m ->
  filter (fun r => String.eqb m (r_MERCHANT_DESCRIPTION r)) (top_row tbl m') = [].
Proof.
  intros Hne.
  assert (H : forall r, In r (top_row tbl m') -> r_MERCHANT_DESCRIPTION r = m')
    by (intro r; apply top_row_merchant).
  induction (top_row tbl m') as [|r l IH]; simpl; [reflexivity|].
  rewrite (H r (or_introl eq_refl)).
  destruct (String.eqb_spec m m'); [congruence|].
  apply IH. intros r' Hr'. apply H. now right.
Qed.

Lemma filter_top_row_same tbl m :
  filter (fun r => String.eqb m (r_MERCHANT_DESCRIPTION r)) (top_row tbl m)
  = top_row tbl m.
Proof.
  unfold top_row. destruct (latest_review tbl m) as [t|] eqn:E; [|reflexivity].
  simpl. apply latest_review_In in E as [_ ->]. now rewrite String.eqb_refl.
Qed.

Lemma filter_tops (tbl : Reviews) (m : string) (l : list string) :
  NoDup l ->
  filter (fun r => String.eqb m (r_MERCHANT_DESCRIPTION r))
         (flat_map (top_row tbl) l)
  = if existsb (String.eqb m) l then top_row tbl m else [].
Proof.
  induction 1 as [|m' l Hnin Hnd IH]; simpl; [reflexivity|].
  rewrite filter_app, IH.
  destruct (String.eqb_spec m m') as [<-|Hne]; simpl.
  - rewrite filter_top_row_same.
    destruct (existsb (String.eqb m) l) eqn:E; [|apply app_nil_r].
    apply existsb_exists in E as (x & Hx & Hmx).
    apply String.eqb_eq in Hmx. now subst x.
  - rewrite filter_top_row_other by congruence. reflexivity.
Qed.

(** [latest_reviews] holds, for each merchant, exactly its latest review. *)
Lemma latest_reviews_of_merchant (tbl : Reviews) (m : string) :
  filter (fun r => String.eqb m (r_MERCHANT_DESCRIPTION r)) (latest_reviews tbl)
  = top_row tbl m.
Proof.
  rewrite latest_reviews_top, filter_tops by apply NoDup_nodup.
  destruct (existsb (String.eqb m) (merchants tbl)) eqn:E; [reflexivity|].
  unfold top_row.
  replace (latest_review tbl m) with (@None ReviewRow); [reflexivity|].
  symmetry. apply latest_review_None. intros t Hin Hm.
  assert (Hex : existsb (String.eqb m) (merchants tbl) = true); [|congruence].
  apply existsb_exists. exists m. split; [|apply String.eqb_refl].
  unfold merchants. apply nodup_In, in_map_iff. now exists t.
Qed.

Lemma join_one (tbl : Reviews) (s : RiskRow) :
  match filter (join_on s) (latest_reviews tbl) with
  | [] => [(s, None)]
  | rs => map (fun r => (s, Some r)) rs
  end = [(s, joined_review tbl s)].
Proof.
  unfold join_on, joined_review.
  rewrite latest_reviews_of_merchant. unfold top_row.
  now destruct (latest_review tbl (s_MERCHANT_DESCRIPTION s)).
Qed.

Lemma left_join_latest (scores : list RiskRow) (tbl : Reviews) :
  left_join scores (latest_reviews tbl)
  = map (fun s => (s, joined_review tbl s)) scores.
Proof.
  unfold left_join.
  rewrite (flat_map_ext _ _ (join_one tbl)).
  induction scores as [|s l IH]; simpl; [reflexivity | now rewrite IH].
Qed.

(** ** The review queue *)

Lemma cutoff_eq now : cutoff now = date_to_timestamp (CURRENT_DATE now - 90).
Proof. reflexivity. Qed.

Lemma where_clause_joined now tbl s :
  sql_is_true (where_clause now (s, joined_review tbl s))
  = high_risk_flag s
    && match latest_review tbl (s_MERCHANT_DESCRIPTION s) with
       | None => true
       | Some t =>
           (String.eqb (t_STATUS t) Reviewed_Benign
            && match t_REVIEW_DATE t with
               | Some d => d <=? cutoff now
               | None => false
               end)
           || String.eqb (t_STATUS t) Pending_Investigation
       end.
Proof.
  unfold where_clause, joined_review, high_risk_flag.
  destruct (ILIKE_true _) as [[|]|];
    destruct (latest_review tbl _) as [t|]; simpl; try reflexivity;
    destruct (String.eqb (t_STATUS t) Reviewed_Benign);
    destruct (String.eqb (t_STATUS t) Pending_Investigation);
    destruct (t_REVIEW_DATE t) as [d|]; simpl; try reflexivity;
    destruct (d <=? cutoff now); reflexivity.
Qed.

Lemma queued_iff now scores tbl s :
  In s (queued now scores tbl) <->
  In s scores /\ sql_is_true (where_clause now (s, joined_review tbl s)) = true.
Proof.
  unfold queued, review_queue_rows. rewrite left_join_latest, in_map_iff.
  split.
  - intros (j & <- & Hj).
    apply order_by_In, filter_In in Hj as [Hj Hw].
    apply in_map_iff in Hj as (s' & <- & Hs'). now split.
  - intros [Hs Hw]. exists (s, joined_review tbl s). split; [reflexivity|].
    apply order_by_In, filter_In. split; [|exact Hw].
    apply in_map_iff. now exists s.
Qed.

Lemma load_review_queue_queued now scores tbl :
  load_review_queue now scores tbl
  = map select_columns (queued now scores tbl).
Proof. unfold load_review_queue, queued. now rewrite map_map. Qed.

(** The flag test, by the kind of value the column holds. *)
Lemma high_risk_flag_cases (s : RiskRow) :
  high_risk_flag s
  = match s_HIGH_RISK_MERCHANT s with
    | FlagNull => false
    | FlagBool b => b
    | FlagText x => String.eqb (lowercase x) "true"
    end.
Proof.
  unfold high_risk_flag. destruct (s_HIGH_RISK_MERCHANT s) as [|[|]|x]; simpl;
    try reflexivity.
  now destruct (String.eqb (lowercase x) "true").
Qed.

Lemma statuses_differ :
  Reviewed_Blocked <> Reviewed_Benign /\
  Reviewed_Blocked <> Pending_Investigation /\
  Reviewed_Benign <> Pending_Investigation.
Proof. repeat split; discriminate. Qed.

Lemma lower_letter (c : ascii) :
  (lower c = "t" <-> c = "t" \/ c = "T")%char
  /\ (lower c = "r" <-> c = "r" \/ c = "R")%char
  /\ (lower c = "u" <-> c = "u" \/ c = "U")%char
  /\ (lower c = "e" <-> c = "e" \/ c = "E")%char.
Proof.
  destruct c as [b0 b1 b2 b3 b4 b5 b6 b7];
    destruct b0, b1, b2, b3, b4, b5, b6, b7; vm_compute;
    repeat split; intros; try discriminate; auto;
    match goal with H : _ \/ _ |- _ => destruct H; discriminate end.
Qed.

Lemma lowercase_true (x : string) :
  lowercase x = "true"%string <-> spelled_true x.
Proof.
  unfold spelled_true. split.
  - destruct x as [|c1 [|c2 [|c3 [|c4 [|c5 x]]]]]; try discriminate.
    simpl. intros [= H1 H2 H3 H4]. exists c1, c2, c3, c4.
    split; [reflexivity|].
    split; [now apply (lower_letter c1)|].
    split; [now apply (lower_letter c2)|].
    split; [now apply (lower_letter c3) | now apply (lower_letter c4)].
  - intros (c1 & c2 & c3 & c4 & -> & H1 & H2 & H3 & H4). simpl.
    apply (lower_letter c1) in H1. apply (lower_letter c2) in H2.
    apply (lower_letter c3) in H3. apply (lower_letter c4) in H4.
    now rewrite H1, H2, H3, H4.
Qed.

(** The flag test accepts the boolean TRUE and the text 'true' in any
    letter case, and nothing else. *)
Lemma high_risk_flag_true (s : RiskRow) :
  high_risk_flag s = true <->
  match s_HIGH_RISK_MERCHANT s with
  | FlagNull => False
  | FlagBool b => b = true
  | FlagText x => spelled_true x
  end.
Proof.
  rewrite high_risk_flag_cases.
  destruct (s_HIGH_RISK_MERCHANT s) as [|b|x]; [easy | tauto|].
  rewrite String.eqb_eq. apply lowercase_true.
Qed.

Lemma queued_by_flag_and_review (now : Timestamp) (scores : list RiskRow)
        (tbl : Reviews) (s : RiskRow) :
  (In s (queued now scores tbl) <->
   In s scores /\ high_risk_flag s = true /\
   ((forall t, In t tbl -> t_MERCHANT_DESCRIPTION t <> s_MERCHANT_DESCRIPTION s)
    \/ (exists t d,
           latest_review tbl (s_MERCHANT_DESCRIPTION s) = Some t /\
           t_STATUS t = Reviewed_Benign /\
           t_REVIEW_DATE t = Some d /\
           d <= date_to_timestamp (CURRENT_DATE now - 90))
    \/ (exists t,
           latest_review tbl (s_MERCHANT_DESCRIPTION s) = Some t /\
           t_STATUS t = Pending_Investigation)))
  /\ (forall t, latest_review tbl (s_MERCHANT_DESCRIPTION s) = Some t ->
                t_STATUS t = Reviewed_Blocked ->
                ~ In s (queued now scores tbl))
  /\ load_review_queue now scores tbl
     = map select_columns (queued now scores tbl).
Proof.
  pose proof statuses_differ as (Hbb & Hbp & _).
  split; [|split; [|apply load_review_queue_queued]].
  - rewrite queued_iff, where_clause_joined, andb_true_iff, <- cutoff_eq.
    split; intros (Hs & Hflag & Hcase); (split; [exact Hs | split; [exact Hflag|]]).
    + destruct (latest_review tbl _) as [t|] eqn:E.
      * right. apply orb_true_iff in Hcase as [Hb|Hp].
        -- left. apply andb_true_iff in Hb as [Hst Hd].
           destruct (t_REVIEW_DATE t) as [d|] eqn:Ed; [|discriminate].
           exists t, d. rewrite String.eqb_eq in Hst. rewrite Z.leb_le in Hd.
           auto.
        -- right. exists t. rewrite String.eqb_eq in Hp. auto.
      * left. now apply latest_review_None.
    + destruct Hcase as [Hnone | [(t & d & -> & Hst & Hd & Hle) | (t & -> & Hst)]].
      * apply latest_review_None in Hnone. now rewrite Hnone.
      * rewrite Hst, Hd. simpl. apply Z.leb_le in Hle. now rewrite Hle.
      * rewrite Hst. apply orb_true_r.
  - intros t E Hst. rewrite queued_iff, where_clause_joined, E, Hst.
    intros [_ H]. apply andb_true_iff in H as [_ H]. simpl in H.
    discriminate.
Qed.

(** C1. A risk row is in the review queue if and only if it is a row of
    MERCHANT_RISK_SCORES whose high-risk flag is true (the boolean TRUE,
    or the text 'true' in any letter case; a FALSE, NULL or other flag is
    not) and (a) the review table has no row for its merchant, or (b) the
    merchant's latest review is 'Reviewed - Benign' with a review date no
    later than 90 days before the current date, or (c) the merchant's
    latest review is 'Pending Investigation'.  A merchant whose latest
    review is 'Reviewed - Blocked' is never in the queue.  The result is
    the projection of these rows. *)
Theorem review_queue_membership (now : Timestamp) (scores : list RiskRow)
        (tbl : Reviews) (s : RiskRow) :
  (In s (queued now scores tbl) <->
   In s scores /\
   match s_HIGH_RISK_MERCHANT s with
   | FlagNull => False
   | FlagBool b => b = true
   | FlagText x => spelled_true x
   end /\
   ((forall t, In t tbl -> t_MERCHANT_DESCRIPTION t <> s_MERCHANT_DESCRIPTION s)
    \/ (exists t d,
           latest_review tbl (s_MERCHANT_DESCRIPTION s) = Some t /\
           t_STATUS t = Reviewed_Benign /\
           t_REVIEW_DATE t = Some d /\
           d <= date_to_timestamp (CURRENT_DATE now - 90))
    \/ (exists t,
           latest_review tbl (s_MERCHANT_DESCRIPTION s) = Some t /\
           t_STATUS t = Pending_Investigation)))
  /\ (forall t, latest_review tbl (s_MERCHANT_DESCRIPTION s) = Some t ->
                t_STATUS t = Reviewed_Blocked ->
                ~ In s (queued now scores tbl))
  /\ load_review_queue now scores tbl
     = map select_columns (queued now scores tbl).
Proof.
  rewrite <- high_risk_flag_true. apply queued_by_flag_and_review.
Qed.

(** Rows flagged FALSE, NULL or 'yes' stay out of the queue of a table
    without reviews; rows flagged TRUE or 'True' are in it. *)
Example flags_in_and_out_of_the_queue :
  map MERCHANT_DESCRIPTION
      (load_review_queue day_20000
         [{| s_MERCHANT_DESCRIPTION := "flag false"; s_RISK_SCORE := 99;
             s_REASON_CODES := ""; s_WEEK_START_DATE := 19723;
             s_HIGH_RISK_MERCHANT := FlagBool false |};
          {| s_MERCHANT_DESCRIPTION := "flag null"; s_RISK_SCORE := 98;
             s_REASON_CODES := ""; s_WEEK_START_DATE := 19723;
             s_HIGH_RISK_MERCHANT := FlagNull |};
          {| s_MERCHANT_DESCRIPTION := "flag yes"; s_RISK_SCORE := 97;
             s_REASON_CODES := ""; s_WEEK_START_DATE := 19723;
             s_HIGH_RISK_MERCHANT := FlagText "yes" |};
          {| s_MERCHANT_DESCRIPTION := "flag True"; s_RISK_SCORE := 96;
             s_REASON_CODES := ""; s_WEEK_START_DATE := 19723;
             s_HIGH_RISK_MERCHANT := FlagText "True" |};
          acme_risk] [])
  = ["flag True"; "Acme Co"]%string.
Proof. reflexivity. Qed.

(** C3. For a high-risk merchant whose latest review is 'Reviewed - Benign'
    with review date [d]: the merchant is in the queue when [d] is no later
    than the current date minus 90 days, the boundary included, and is not
    in the queue when [d] is later than that. *)
Theorem benign_clearance_boundary (now : Timestamp) (scores : list RiskRow)
        (tbl : Reviews) (s : RiskRow) (t : ReviewRow) (d : Timestamp) :
  In s scores ->
  high_risk_flag s = true ->
  latest_review tbl (s_MERCHANT_DESCRIPTION s) = Some t ->
  t_STATUS t = Reviewed_Benign ->
  t_REVIEW_DATE t = Some d ->
  (d <= date_to_timestamp (CURRENT_DATE now - 90) -> In s (queued now scores tbl))
  /\ (d = date_to_timestamp (CURRENT_DATE now - 90) -> In s (queued now scores tbl))
  /\ (date_to_timestamp (CURRENT_DATE now - 90) < d -> ~ In s (queued now scores tbl)).
Proof.
  intros Hs Hflag E Hst Hd.
  assert (Hq : In s (queued now scores tbl) <-> d <= cutoff now).
  { rewrite queued_iff, where_clause_joined, E, Hst, Hd, Hflag. simpl.
    rewrite orb_false_r, Z.leb_le. tauto. }
  rewrite <- cutoff_eq, Hq. repeat split; lia.
Qed.

Lemma benign_clearance_boundary_witness :
  In acme_risk [acme_risk; globex_risk]
  /\ high_risk_flag acme_risk = true
  /\ latest_review [acme_review Reviewed_Benign 91 (Some 1720224000)]
                   (s_MERCHANT_DESCRIPTION acme_risk)
     = Some (acme_review Reviewed_Benign 91 (Some 1720224000))
  /\ t_STATUS (acme_review Reviewed_Benign 91 (Some 1720224000)) = Reviewed_Benign
  /\ t_REVIEW_DATE (acme_review Reviewed_Benign 91 (Some 1720224000))
     = Some 1720224000
  /\ In acme_risk
        (queued day_20000 [acme_risk; globex_risk]
                [acme_review Reviewed_Benign 91 (Some 1720224000)]).
Proof.
  assert (H1 : In acme_risk [acme_risk; globex_risk]) by (simpl; auto).
  assert (H2 : high_risk_flag acme_risk = true) by reflexivity.
  assert (H3 : latest_review [acme_review Reviewed_Benign 91 (Some 1720224000)]
                             (s_MERCHANT_DESCRIPTION acme_risk)
               = Some (acme_review Reviewed_Benign 91 (Some 1720224000)))
    by reflexivity.
  repeat (split; [assumption || reflexivity|]).
  apply (benign_clearance_boundary day_20000 _ _ _ _ 1720224000 H1 H2 H3
                                   eq_refl eq_refl).
  reflexivity.
Defined.

(** C4. [latest_reviews] holds one row per merchant of the review table,
    the projection of a row of that merchant whose review date no other
    row of the merchant exceeds; the left join gives every risk row exactly
    that row of its merchant (or none), whatever the weeks of the risk row
    and of the review. *)
Theorem latest_review_per_merchant (tbl : Reviews) :
  (forall m,
      filter (fun r => String.eqb m (r_MERCHANT_DESCRIPTION r)) (latest_reviews tbl)
      = match latest_review tbl m with
        | Some t => [select_latest t]
        | None => []
        end)
  /\ (forall m, (exists t, In t tbl /\ t_MERCHANT_DESCRIPTION t = m) <->
                (exists t, latest_review tbl m = Some t))
  /\ (forall m t,
         latest_review tbl m = Some t ->
         In t tbl /\ t_MERCHANT_DESCRIPTION t = m /\
         forall t', In t' tbl -> t_MERCHANT_DESCRIPTION t' = m ->
                    forall d, t_REVIEW_DATE t = Some d ->
                              exists d', t_REVIEW_DATE t' = Some d' /\ d' <= d)
  /\ (forall scores,
         left_join scores (latest_reviews tbl)
         = map (fun s => (s, option_map select_latest
                               (latest_review tbl (s_MERCHANT_DESCRIPTION s))))
               scores)
  /\ (forall s s',
         s_MERCHANT_DESCRIPTION s = s_MERCHANT_DESCRIPTION s' ->
         joined_review tbl s = joined_review tbl s').
Proof.
  split; [|split; [|split; [|split]]].
  - apply latest_reviews_of_merchant.
  - intros m. split.
    + intros (t & Hin & Hm).
      destruct (latest_review tbl m) as [t'|] eqn:E; [now exists t'|].
      exfalso. eapply latest_review_None; eauto.
    + intros (t & E). exists t. now apply latest_review_In.
  - intros m t E. destruct (latest_review_In _ _ _ E) as [Hin Hm].
    split; [exact Hin | split; [exact Hm|]].
    intros t' Hin' Hm' d Hd.
    pose proof (latest_review_max _ _ _ E t' Hin' Hm') as Hmax.
    unfold review_date_desc in Hmax. rewrite Hd in Hmax.
    destruct (t_REVIEW_DATE t') as [d'|]; [|discriminate].
    exists d'. split; [reflexivity | now apply Z.leb_le].
  - intros scores. apply left_join_latest.
  - intros s s' Hm. unfold joined_review. now rewrite Hm.
Qed.

Lemma risk_score_desc_total a b :
  risk_score_desc a b = false -> risk_score_desc b a = true.
Proof. unfold risk_score_desc. rewrite Z.leb_gt, Z.leb_le. lia. Qed.

(** C8. The rows of the review queue are in descending order of risk
    score: of two adjacent rows the earlier has the greater or equal
    score. *)
Theorem review_queue_sorted (now : Timestamp) (scores : list RiskRow)
        (tbl : Reviews) (i : nat) (a b : QueueRow) :
  nth_error (load_review_queue now scores tbl) i = Some a ->
  nth_error (load_review_queue now scores tbl) (S i) = Some b ->
  RISK_SCORE b <= RISK_SCORE a.
Proof.
  unfold load_review_queue. rewrite !nth_error_map.
  destruct (nth_error _ i) as [ja|] eqn:Ea; [|discriminate].
  destruct (nth_error _ (S i)) as [jb|] eqn:Eb; [|discriminate].
  simpl. intros [= <-] [= <-].
  pose proof (Sorted_adjacent _ _
                (order_by_sorted risk_score_desc risk_score_desc_total _)
                _ _ _ Ea Eb) as H.
  now apply Z.leb_le in H.
Qed.

Lemma review_queue_sorted_witness :
  nth_error (load_review_queue day_20000 [acme_risk; globex_risk] []) 0
  = Some (select_columns globex_risk)
  /\ nth_error (load_review_queue day_20000 [acme_risk; globex_risk] []) 1
     = Some (select_columns acme_risk)
  /\ RISK_SCORE (select_columns acme_risk)
     <= RISK_SCORE (select_columns globex_risk).
Proof.
  split; [reflexivity | split; [reflexivity|]].
  apply (review_queue_sorted day_20000 [acme_risk; globex_risk] [] 0);
    reflexivity.
Defined.

(** ** The upsert *)

Lemma merge_on_has_key (src : MergeSource) (t : ReviewRow) :
  merge_on src t
  = has_key (src_MERCHANT_DESCRIPTION src) (src_WEEK_START_DATE src) t.
Proof. reflexivity. Qed.

Lemma has_key_when_matched m w now src t :
  has_key m w (when_matched now src t) = has_key m w t.
Proof. reflexivity. Qed.





Lemma has_key_update_matched m w now src t :
  has_key m w (update_matched now src t) = has_key m w t.
Proof. unfold update_matched. now destruct (merge_on src t). Qed.

Lemma MERGE_matched dflt now src tbl :
  existsb (merge_on src) tbl = true ->
  MERGE dflt now src tbl = map (update_matched now src) tbl.
Proof. unfold MERGE. now intros ->. Qed.

Lemma MERGE_not_matched dflt now src tbl :
  existsb (merge_on src) tbl = false ->
  MERGE dflt now src tbl = tbl ++ [when_not_matched dflt now src].
Proof. unfold MERGE. now intros ->. Qed.





Lemma update_branch_review_date dflt now src tbl t :
  existsb (merge_on src) tbl = true ->
  In t (MERGE dflt now src tbl) -> merge_on src t = true ->
  t_REVIEW_DATE t = Some now.
Proof.
  intros E Hin Hk. rewrite (MERGE_matched _ _ _ _ E) in Hin.
  apply in_map_iff in Hin as (t0 & <- & _).
  rewrite merge_on_has_key, has_key_update_matched in Hk.
  unfold update_matched. now rewrite merge_on_has_key, Hk.
Qed.

Lemma insert_branch_review_date dflt now src tbl :
  existsb (merge_on src) tbl = false ->
  exists r, MERGE dflt now src tbl = tbl ++ [r] /\
            t_REVIEW_DATE r = default_value dflt now.
Proof.
  intros E. rewrite (MERGE_not_matched _ _ _ _ E). now eexists.
Qed.

Section UpsertFacts.
Variable str_score : Z -> string.
Variable str_date : Date -> string.
Variable dflt : ColumnDefault.

(** C5. A submission with no status selected leaves the review table as it
    was, executes no statement and shows the validation message. *)
Theorem submit_without_status (now : Timestamp) (user : string)
        (details : QueueRow) (notes : string) (tbl : Reviews) :
  submit_review str_score str_date dflt now user details None notes tbl
  = (tbl, [st_error "Please select a status."]).
Proof. reflexivity. Qed.

End UpsertFacts.



(** C6. A first review runs the INSERT branch of the MERGE.  Its column
    list has no REVIEW_DATE, so the review date of the new row is the
    default of the column, not the time of the write: with no DEFAULT on
    the column the first review of Acme Co is stored without a review date.
    The UPDATE branch, run by a second submission for the same key, sets
    the review date to the time of the write. *)
Theorem insert_branch_omits_review_date :
  (forall dflt now user details st notes,
      map t_REVIEW_DATE
          (fst (submit_review str_91 str_2024_01_01 dflt now user details
                              (Some st) notes []))
      = [default_value dflt now])
  /\ map t_REVIEW_DATE
         (fst (submit_review str_91 str_2024_01_01 NoDefault 1704103200
                             "ANALYST" acme_entry (Some Benign)
                             "looks fine" []))
     = [None]
  /\ map t_REVIEW_DATE
         (fst (submit_review str_91 str_2024_01_01 NoDefault 1704189600
                             "ANALYST" acme_entry (Some Benign) "still fine"
                             (fst (submit_review str_91 str_2024_01_01
                                                 NoDefault 1704103200
                                                 "ANALYST" acme_entry
                                                 (Some Benign)
                                                 "looks fine" []))))
     = [Some 1704189600].
Proof. repeat split. Qed.

(** The consequence for the queue: 100 days after that first review the
    clearance of Acme Co has not expired, because the stored row has no
    review date to compare. *)
Example benign_without_review_date_never_expires :
  load_review_queue (1704103200 + 100 * seconds_per_day) [acme_risk]
    (fst (submit_review str_91 str_2024_01_01 NoDefault 1704103200
                        "ANALYST" acme_entry (Some Benign) "looks fine" []))
  = [].
Proof. reflexivity. Qed.

(** The scenarios of the specification. *)
Example acme_never_reviewed :
  load_review_queue day_20000 [acme_risk] [] = [acme_entry].
Proof. reflexivity. Qed.

Example acme_blocked_leaves_queue :
  load_review_queue day_20000 [acme_risk]
    (fst (submit_review str_91 str_2024_01_01 NoDefault day_20000
                        "ANALYST" acme_entry (Some Blocked) "fraud" []))
  = [].
Proof. reflexivity. Qed.

Example acme_benign_100_days_ago :
  load_review_queue day_20000 [acme_risk]
    [acme_review Reviewed_Benign 91 (Some (day_20000 - 100 * seconds_per_day))]
  = [acme_entry].
Proof. reflexivity. Qed.

Example acme_benign_10_days_ago :
  load_review_queue day_20000 [acme_risk]
    [acme_review Reviewed_Benign 91 (Some (day_20000 - 10 * seconds_per_day))]
  = [].
Proof. reflexivity. Qed.

(** ** The text of the MERGE *)
Section MergeText.
Local Open Scope string_scope.

Lemma append_assoc (a b c : string) : (a ++ b) ++ c = a ++ b ++ c.
Proof. induction a as [|x a IH]; simpl; [reflexivity | now rewrite IH]. Qed.

Lemma append_nil_r (a : string) : a ++ "" = a.
Proof. induction a as [|x a IH]; simpl; [reflexivity | now rewrite IH]. Qed.

Lemma is_quote_true (c : ascii) : is_quote c = true -> c = quote.
Proof. apply Ascii.eqb_eq. Qed.

Lemma replace_quote_free (s : string) :
  quote_free s = true -> replace_quote s = s.
Proof.
  induction s as [|c s IH]; simpl; [reflexivity|].
  destruct (is_quote c); simpl; [discriminate|].
  intros H. now rewrite IH.
Qed.


(** Outside a literal, text without a quote is passed over. *)
Lemma literals_skip (a b : string) :
  quote_free a = true ->
  literals_from None (a ++ b) = literals_from None b.
Proof.
  induction a as [|c a IH]; simpl; [reflexivity|].
  destruct (is_quote c); simpl; [discriminate | exact IH].
Qed.

(** Inside a literal, an escaped value followed by the closing quote reads
    back as the value. *)
Lemma literals_inside (s : string) :
  forall acc b,
    starts_with_quote b = false ->
    literals_from (Some acc) (replace_quote s ++ q ++ b)
    = option_map (cons (acc ++ s)) (literals_from None b).
Proof.
  induction s as [|c s IH]; intros acc b Hb.
  - rewrite append_nil_r. destruct b as [|c' b]; [reflexivity|].
    simpl in Hb. cbn. now rewrite Hb.
  - cbn [replace_quote]. destruct (is_quote c) eqn:E.
    + apply is_quote_true in E. subst c.
      cbn [append literals_from]. unfold is_quote at 1 2.
      rewrite Ascii.eqb_refl. fold q.
      rewrite IH by assumption. now rewrite append_assoc.
    + cbn [append literals_from]. rewrite E.
      rewrite IH by assumption. now rewrite append_assoc.
Qed.

Lemma literal_segment (s b : string) :
  starts_with_quote b = false ->
  literals_from None (q ++ replace_quote s ++ q ++ b)
  = option_map (cons s) (literals_from None b).
Proof.
  intros Hb. unfold q at 1. cbn [append literals_from].
  unfold is_quote at 1. rewrite Ascii.eqb_refl.
  now rewrite literals_inside.
Qed.

Lemma literal_segment_free (s b : string) :
  quote_free s = true ->
  starts_with_quote b = false ->
  literals_from None (q ++ s ++ q ++ b)
  = option_map (cons s) (literals_from None b).
Proof.
  intros Hs Hb. rewrite <- (replace_quote_free s Hs) at 1.
  now apply literal_segment.
Qed.

End MergeText.

(** ** The weekly analytics *)

Lemma DATE_TRUNC_week_spec (d : Date) :
  DATE_TRUNC_week d <= d < DATE_TRUNC_week d + 7
  /\ (DATE_TRUNC_week d + 3) mod 7 = 0.
Proof. unfold DATE_TRUNC_week. Z.div_mod_to_equations. lia. Qed.

Lemma key_eqb_eq (a b : Date * string) : key_eqb a b = true <-> a = b.
Proof.
  destruct a as [wa sa], b as [wb sb]. unfold key_eqb. simpl.
  rewrite andb_true_iff, Z.eqb_eq, String.eqb_eq.
  split; [intros [-> ->]; reflexivity | intros [= -> ->]; now split].
Qed.

Lemma week_desc_status_asc_total a b :
  week_desc_status_asc a b = false -> week_desc_status_asc b a = true.
Proof.
  unfold week_desc_status_asc. intros H.
  apply orb_false_iff in H as [Hlt Heq]. apply Z.ltb_ge in Hlt.
  destruct (Z.ltb_spec (REVIEW_WEEK a) (REVIEW_WEEK b)) as [|Hge];
    [reflexivity|].
  assert (Hw : REVIEW_WEEK a = REVIEW_WEEK b) by lia.
  rewrite Hw, Z.eqb_refl in *. simpl in *.
  destruct (String.leb_total (STATUS a) (STATUS b)); congruence.
Qed.

Lemma Sorted_weaken {A} (R R' : A -> A -> Prop) (l : list A) :
  (forall a b, R a b -> R' a b) -> Sorted R l -> Sorted R' l.
Proof.
  intros H. induction 1 as [|x l Hs IH Hd]; constructor; [exact IH|].
  destruct Hd; constructor; auto.
Qed.

Lemma load_monitoring_data_In (tbl : Reviews) (x : WeekCount) :
  In x (load_monitoring_data tbl) <->
  exists t, In t tbl /\ x = week_count tbl (group_key t).
Proof.
  unfold load_monitoring_data. rewrite order_by_In, in_map_iff.
  unfold group_keys. split.
  - intros (k & <- & Hk). apply nodup_In, in_map_iff in Hk as (t & <- & Ht).
    now exists t.
  - intros (t & Ht & ->). exists (group_key t). split; [reflexivity|].
    apply nodup_In, in_map_iff. now exists t.
Qed.

(** C7. The analytics has one row per (week, status) that occurs in the
    review table, the week being the Monday on or before the row's week
    start; the row's count is the number of table rows of that week and
    status; the rows are in descending order of week and, within a week,
    in ascending order of status. *)
Theorem weekly_analytics (tbl : Reviews) :
  (forall x, In x (load_monitoring_data tbl) ->
             MERCHANT_COUNT x
             = List.length
                 (filter (fun t =>
                            (DATE_TRUNC_week (t_WEEK_START_DATE t) =? REVIEW_WEEK x)
                            && String.eqb (t_STATUS t) (STATUS x)) tbl)
             /\ (0 < MERCHANT_COUNT x)%nat)
  /\ (forall t, In t tbl ->
                exists x, In x (load_monitoring_data tbl)
                          /\ REVIEW_WEEK x = DATE_TRUNC_week (t_WEEK_START_DATE t)
                          /\ STATUS x = t_STATUS t)
  /\ NoDup (map (fun x => (REVIEW_WEEK x, STATUS x)) (load_monitoring_data tbl))
  /\ Sorted (fun a b =>
               REVIEW_WEEK b < REVIEW_WEEK a
               \/ (REVIEW_WEEK a = REVIEW_WEEK b
                   /\ String.leb (STATUS a) (STATUS b) = true))
            (load_monitoring_data tbl)
  /\ (forall d, DATE_TRUNC_week d <= d < DATE_TRUNC_week d + 7
                /\ (DATE_TRUNC_week d + 3) mod 7 = 0).
Proof.
  split; [|split; [|split; [|split]]].
  - intros x Hx. apply load_monitoring_data_In in Hx as (t & Ht & ->).
    split; [reflexivity|]. simpl. unfold count_rows.
    assert (Hin : In t (filter (fun t0 => key_eqb (group_key t0) (group_key t)) tbl)).
    { apply filter_In. split; [exact Ht | now apply key_eqb_eq]. }
    destruct (filter _ tbl); [easy | simpl; lia].
  - intros t Ht. exists (week_count tbl (group_key t)).
    split; [|now split]. apply load_monitoring_data_In. now exists t.
  - unfold load_monitoring_data.
    eapply Permutation_NoDup.
    + apply Permutation_map. symmetry. apply order_by_perm.
    + rewrite map_map. simpl.
      rewrite (map_ext _ (fun k => k)) by (now intros [w st]).
      rewrite map_id. apply NoDup_nodup.
  - unfold load_monitoring_data.
    eapply Sorted_weaken;
      [|apply order_by_sorted, week_desc_status_asc_total].
    intros a b H. unfold week_desc_status_asc in H. simpl in H.
    apply orb_true_iff in H as [H|H].
    + left. now apply Z.ltb_lt.
    + right. apply andb_true_iff in H as [Hw Hs].
      split; [now apply Z.eqb_eq | exact Hs].
  - apply DATE_TRUNC_week_spec.
Qed.

(** * Further properties of the page *)

(** ** The queue as a selection of the risk rows *)

Lemma review_queue_rows_perm now scores tbl :
  Permutation (queued now scores tbl) (filter (qualifies now tbl) scores).
Proof.
  unfold queued, review_queue_rows. rewrite left_join_latest.
  rewrite (Permutation_map fst (order_by_perm risk_score_desc _)).
  unfold qualifies.
  induction scores as [|s l IH]; cbn [map filter fst]; [constructor|].
  destruct (sql_is_true (where_clause now (s, joined_review tbl s)));
    cbn [map fst]; auto.
Qed.

(** The join neither drops nor repeats a risk row: the queue holds every
    risk row that passes the WHERE clause as many times as the risk table
    does, so it is never longer than the risk table. *)
Theorem queue_is_selection (now : Timestamp) (scores : list RiskRow)
        (tbl : Reviews) :
  Permutation (queued now scores tbl) (filter (qualifies now tbl) scores)
  /\ List.length (load_review_queue now scores tbl)
     = List.length (filter (qualifies now tbl) scores)
  /\ (List.length (load_review_queue now scores tbl) <= List.length scores)%nat.
Proof.
  pose proof (review_queue_rows_perm now scores tbl) as P.
  assert (L : List.length (load_review_queue now scores tbl)
              = List.length (filter (qualifies now tbl) scores)).
  { rewrite load_review_queue_queued, length_map.
    now apply Permutation_length. }
  split; [exact P | split; [exact L|]].
  rewrite L. apply filter_length_le.
Qed.

Lemma cutoff_monotone now now' : now <= now' -> cutoff now <= cutoff now'.
Proof.
  intros H. unfold cutoff, date_to_timestamp, DATEADD_day, CURRENT_DATE,
              seconds_per_day.
  assert (now / 86400 <= now' / 86400) by (apply Z.div_le_mono; lia).
  lia.
Qed.

Lemma qualifies_iff now tbl s :
  qualifies now tbl s = true <->
  high_risk_flag s = true /\
  match latest_review tbl (s_MERCHANT_DESCRIPTION s) with
  | None => True
  | Some t =>
      (t_STATUS t = Reviewed_Benign /\
       exists d, t_REVIEW_DATE t = Some d /\ d <= cutoff now)
      \/ t_STATUS t = Pending_Investigation
  end.
Proof.
  unfold qualifies. rewrite where_clause_joined, andb_true_iff.
  destruct (latest_review tbl _) as [t|]; [|tauto].
  rewrite orb_true_iff, andb_true_iff, !String.eqb_eq.
  destruct (t_REVIEW_DATE t) as [d|].
  - rewrite Z.leb_le. split.
    + intros [Hf [[Hb Hd]|Hp]]; split; auto. left. split; eauto.
    + intros [Hf [[Hb (d' & [= <-] & Hd)]|Hp]]; split; auto.
  - split.
    + intros [Hf [[_ Hd]|Hp]]; [discriminate | auto].
    + intros [Hf [[_ (d' & Hd & _)]|Hp]]; [discriminate | auto].
Qed.

Lemma queued_qualifies now scores tbl s :
  In s (queued now scores tbl) <-> In s scores /\ qualifies now tbl s = true.
Proof. apply queued_iff. Qed.

(** While the two tables stay as they are, a row that is in the queue at
    one instant is in the queue at every later instant: time alone never
    takes a merchant out of the queue. *)
Theorem queue_monotone_in_time (now now' : Timestamp) (scores : list RiskRow)
        (tbl : Reviews) (s : RiskRow) :
  now <= now' ->
  In s (queued now scores tbl) ->
  In s (queued now' scores tbl).
Proof.
  intros Hle. rewrite !queued_qualifies, !qualifies_iff.
  intros (Hs & Hf & Hcase). split; [exact Hs | split; [exact Hf|]].
  destruct (latest_review tbl _) as [t|]; [|exact I].
  destruct Hcase as [[Hb (d & Hd & Hdle)]|Hp]; [left | now right].
  split; [exact Hb|]. exists d. split; [exact Hd|].
  pose proof (cutoff_monotone now now' Hle). lia.
Qed.

Lemma queue_monotone_in_time_witness :
  day_20000 <= day_20000 + 30 * seconds_per_day
  /\ In acme_risk
        (queued day_20000 [acme_risk; globex_risk]
                [acme_review Reviewed_Benign 91 (Some 1720224000)])
  /\ In acme_risk
        (queued (day_20000 + 30 * seconds_per_day) [acme_risk; globex_risk]
                [acme_review Reviewed_Benign 91 (Some 1720224000)]).
Proof.
  assert (H1 : day_20000 <= day_20000 + 30 * seconds_per_day)
    by (vm_compute; discriminate).
  assert (H2 : In acme_risk
                  (queued day_20000 [acme_risk; globex_risk]
                          [acme_review Reviewed_Benign 91 (Some 1720224000)]))
    by (vm_compute; auto).
  split; [exact H1 | split; [exact H2|]].
  exact (queue_monotone_in_time _ _ _ _ _ H1 H2).
Defined.

(** ** Independence of the scan order of the review table *)

Lemma review_date_desc_antisym a b :
  review_date_desc a b = true -> review_date_desc b a = true ->
  t_REVIEW_DATE a = t_REVIEW_DATE b.
Proof.
  unfold review_date_desc.
  destruct (t_REVIEW_DATE a), (t_REVIEW_DATE b); try easy.
  rewrite !Z.leb_le. intros. f_equal. lia.
Qed.

Lemma joined_review_perm tbl tbl' s :
  Permutation tbl tbl' ->
  (forall t1 t2, In t1 tbl -> In t2 tbl ->
                 t_MERCHANT_DESCRIPTION t1 = t_MERCHANT_DESCRIPTION t2 ->
                 t_REVIEW_DATE t1 = t_REVIEW_DATE t2 ->
                 t_STATUS t1 = t_STATUS t2) ->
  joined_review tbl s = joined_review tbl' s.
Proof.
  intros P Hties. unfold joined_review.
  set (m := s_MERCHANT_DESCRIPTION s).
  destruct (latest_review tbl m) as [t|] eqn:E;
    destruct (latest_review tbl' m) as [t'|] eqn:E'; simpl.
  - destruct (latest_review_In _ _ _ E) as [Hin Hm].
    destruct (latest_review_In _ _ _ E') as [Hin' Hm'].
    assert (Hin'' : In t' tbl) by (eapply Permutation_in; [symmetry|]; eauto).
    assert (Hd : t_REVIEW_DATE t = t_REVIEW_DATE t').
    { apply review_date_desc_antisym.
      - eapply latest_review_max; eauto.
      - eapply latest_review_max; eauto. eapply Permutation_in; eauto. }
    unfold select_latest. rewrite Hm, Hm', Hd.
    now rewrite (Hties t t' Hin Hin'' (eq_trans Hm (eq_sym Hm')) Hd).
  - exfalso. destruct (latest_review_In _ _ _ E) as [Hin Hm].
    apply (proj1 (latest_review_None tbl' m) E' t); [|exact Hm].
    eapply Permutation_in; eauto.
  - exfalso. destruct (latest_review_In _ _ _ E') as [Hin Hm].
    apply (proj1 (latest_review_None tbl m) E t'); [|exact Hm].
    eapply Permutation_in; [symmetry|]; eauto.
  - reflexivity.
Qed.

(** ROW_NUMBER leaves the order of tied rows open.  When no two reviews of
    one merchant with the same review date differ in status, the queue is
    the same whatever the order in which the review rows are scanned. *)
Theorem queue_independent_of_scan_order (now : Timestamp)
        (scores : list RiskRow) (tbl tbl' : Reviews) :
  Permutation tbl tbl' ->
  (forall t1 t2, In t1 tbl -> In t2 tbl ->
                 t_MERCHANT_DESCRIPTION t1 = t_MERCHANT_DESCRIPTION t2 ->
                 t_REVIEW_DATE t1 = t_REVIEW_DATE t2 ->
                 t_STATUS t1 = t_STATUS t2) ->
  load_review_queue now scores tbl = load_review_queue now scores tbl'.
Proof.
  intros P Hties. unfold load_review_queue, review_queue_rows.
  rewrite !left_join_latest. do 3 f_equal.
  apply map_ext. intros s. f_equal. now apply joined_review_perm.
Qed.

Lemma queue_independent_of_scan_order_witness :
  Permutation [acme_review Reviewed_Benign 91 (Some 1704103200);
               acme_review Reviewed_Blocked 91 (Some 1704189600)]
              [acme_review Reviewed_Blocked 91 (Some 1704189600);
               acme_review Reviewed_Benign 91 (Some 1704103200)]
  /\ load_review_queue day_20000 [acme_risk; globex_risk]
       [acme_review Reviewed_Benign 91 (Some 1704103200);
        acme_review Reviewed_Blocked 91 (Some 1704189600)]
     = load_review_queue day_20000 [acme_risk; globex_risk]
         [acme_review Reviewed_Blocked 91 (Some 1704189600);
          acme_review Reviewed_Benign 91 (Some 1704103200)].
Proof.
  assert (P : Permutation
                [acme_review Reviewed_Benign 91 (Some 1704103200);
                 acme_review Reviewed_Blocked 91 (Some 1704189600)]
                [acme_review Reviewed_Blocked 91 (Some 1704189600);
                 acme_review Reviewed_Benign 91 (Some 1704103200)])
    by apply perm_swap.
  split; [exact P|].
  apply (queue_independent_of_scan_order day_20000 _ _ _ P).
  intros t1 t2 [<-|[<-|[]]] [<-|[<-|[]]] _ Hd;
    (reflexivity || discriminate Hd).
Defined.

(** ** Choosing the merchant to review *)

Lemma unique_In (l : list string) (x : string) : In x (unique l) <-> In x l.
Proof.
  induction l as [|y l IH]; simpl; [tauto|].
  rewrite filter_In, negb_true_iff, String.eqb_neq, IH.
  destruct (string_dec y x); [tauto|].
  split; [tauto|]. intros [H|H]; [tauto|]. right. split; [exact H|congruence].
Qed.

Lemma unique_NoDup (l : list string) : NoDup (unique l).
Proof.
  induction l as [|y l IH]; simpl; constructor.
  - rewrite filter_In, negb_true_iff, String.eqb_neq. tauto.
  - now apply NoDup_filter.
Qed.

(** The select box offers every merchant of the queue once, and its first
    option, the one shown before the reviewer chooses, is the merchant of
    the first queue row. *)
Theorem merchant_options_spec (review_df : list QueueRow) :
  NoDup (merchant_options review_df)
  /\ (forall m, In m (merchant_options review_df) <->
                exists r, In r review_df /\ MERCHANT_DESCRIPTION r = m)
  /\ hd_error (merchant_options review_df)
     = option_map MERCHANT_DESCRIPTION (hd_error review_df).
Proof.
  unfold merchant_options. split; [apply unique_NoDup | split].
  - intros m. rewrite unique_In, in_map_iff. split; intros (r & H1 & H2); eauto.
  - now destruct review_df.
Qed.

Lemma risk_score_desc_trans a b c :
  risk_score_desc a b = true -> risk_score_desc b c = true ->
  risk_score_desc a c = true.
Proof. unfold risk_score_desc. rewrite !Z.leb_le. lia. Qed.

Lemma load_review_queue_strongly_sorted now scores tbl :
  StronglySorted (fun a b => RISK_SCORE b <= RISK_SCORE a)
                 (load_review_queue now scores tbl).
Proof.
  unfold load_review_queue.
  assert (H : StronglySorted (fun x y => risk_score_desc x y = true)
                             (review_queue_rows now scores tbl)).
  { apply Sorted_StronglySorted.
    - intros a b c. apply risk_score_desc_trans.
    - apply order_by_sorted, risk_score_desc_total. }
  induction H as [|j l Hs IH Hall]; simpl; constructor; [exact IH|].
  rewrite Forall_forall in *. intros x Hx.
  apply in_map_iff in Hx as (j' & <- & Hj').
  specialize (Hall j' Hj'). now apply Z.leb_le in Hall.
Qed.

Lemma first_match_is_top (p : QueueRow -> bool) (l : list QueueRow) (d : QueueRow) :
  StronglySorted (fun a b => RISK_SCORE b <= RISK_SCORE a) l ->
  hd_error (filter p l) = Some d ->
  forall r, In r l -> p r = true -> RISK_SCORE r <= RISK_SCORE d.
Proof.
  induction 1 as [|x l Hs IH Hall]; simpl; [discriminate|].
  destruct (p x) eqn:Px; simpl.
  - intros [= <-] r [<-|Hr] _; [lia|].
    rewrite Forall_forall in Hall. now apply Hall.
  - intros Hd r [<-|Hr] Pr; [congruence | now apply IH].
Qed.

(** Choosing an offered merchant never fails, and the row that is reviewed
    is the merchant's queue row of highest risk score: the week and the
    score written by the submission are those of that row. *)
Theorem merchant_details_top_row (now : Timestamp) (scores : list RiskRow)
        (tbl : Reviews) (selected_merchant : string) :
  In selected_merchant (merchant_options (load_review_queue now scores tbl)) ->
  exists d,
    merchant_details (load_review_queue now scores tbl) selected_merchant
    = Some d
    /\ In d (load_review_queue now scores tbl)
    /\ MERCHANT_DESCRIPTION d = selected_merchant
    /\ forall r, In r (load_review_queue now scores tbl) ->
                 MERCHANT_DESCRIPTION r = selected_merchant ->
                 RISK_SCORE r <= RISK_SCORE d.
Proof.
  intros Hsel. unfold merchant_options in Hsel.
  apply unique_In, in_map_iff in Hsel as (r0 & Hm0 & Hr0).
  unfold merchant_details.
  set (p := fun r => String.eqb (MERCHANT_DESCRIPTION r) selected_merchant).
  assert (Hin0 : In r0 (filter p (load_review_queue now scores tbl))).
  { apply filter_In. split; [exact Hr0|]. unfold p. now apply String.eqb_eq. }
  destruct (filter p (load_review_queue now scores tbl)) as [|d rest] eqn:F;
    [easy|].
  assert (Hd : In d (filter p (load_review_queue now scores tbl)))
    by (rewrite F; now left).
  apply filter_In in Hd as [Hd Hpd].
  exists d. split; [reflexivity | split; [exact Hd | split]].
  - now apply String.eqb_eq in Hpd.
  - intros r Hr Hm.
    apply (first_match_is_top p (load_review_queue now scores tbl));
      [apply load_review_queue_strongly_sorted | now rewrite F | exact Hr|].
    unfold p. now apply String.eqb_eq.
Qed.

Lemma merchant_details_top_row_witness :
  In "Acme Co"%string
     (merchant_options (load_review_queue day_20000 [acme_risk; globex_risk] []))
  /\ exists d,
      merchant_details (load_review_queue day_20000 [acme_risk; globex_risk] [])
                       "Acme Co" = Some d
      /\ MERCHANT_DESCRIPTION d = "Acme Co"%string.
Proof.
  assert (H : In "Acme Co"%string
                 (merchant_options
                    (load_review_queue day_20000 [acme_risk; globex_risk] [])))
    by (vm_compute; auto).
  split; [exact H|].
  destruct (merchant_details_top_row day_20000 [acme_risk; globex_risk] []
                                     "Acme Co" H) as (d & Hd & _ & Hm & _).
  exists d. now split.
Defined.

(** ** What a submission leaves alone *)




(** ** A submission read back by the queue *)




(** ** Totals of the weekly analytics *)

Lemma indicator_sum (k : Date * string) (ks : list (Date * string)) :
  NoDup ks -> In k ks ->
  fold_right (fun k' n => ((if key_eqb k k' then 1 else 0) + n)%nat) 0%nat ks
  = 1%nat.
Proof.
  induction 1 as [|k' ks Hnin Hnd IH]; simpl; [easy|].
  intros [->|Hin].
  - replace (key_eqb k k) with true by (symmetry; now apply key_eqb_eq).
    assert (Hz : forall l, ~ In k l ->
                 fold_right (fun k' n => ((if key_eqb k k' then 1 else 0) + n)%nat)
                            0%nat l = 0%nat).
    { induction l as [|a l IHl]; simpl; [reflexivity|]. intros Hn.
      destruct (key_eqb k a) eqn:E.
      - apply key_eqb_eq in E. subst a. tauto.
      - apply IHl. tauto. }
    now rewrite Hz.
  - destruct (key_eqb k k') eqn:E.
    + apply key_eqb_eq in E. subst k'. contradiction.
    + now apply IH.
Qed.

Lemma count_rows_sum (ks : list (Date * string)) (tbl : Reviews) :
  NoDup ks -> (forall t, In t tbl -> In (group_key t) ks) ->
  fold_right (fun k n => (count_rows tbl k + n)%nat) 0%nat ks
  = List.length tbl.
Proof.
  intros Hnd. induction tbl as [|t l IH]; intros Hall.
  - clear. induction ks as [|k ks IHk]; simpl; [reflexivity | exact IHk].
  - assert (Hsplit : forall ks',
               fold_right (fun k n => (count_rows (t :: l) k + n)%nat) 0%nat ks'
               = (fold_right (fun k' n =>
                                ((if key_eqb (group_key t) k' then 1 else 0) + n)%nat)
                             0%nat ks'
                  + fold_right (fun k n => (count_rows l k + n)%nat) 0%nat ks')%nat).
    { induction ks' as [|k ks' IHk]; simpl; [reflexivity|].
      rewrite IHk. unfold count_rows. simpl.
      destruct (key_eqb (group_key t) k); simpl; lia. }
    rewrite Hsplit, (indicator_sum (group_key t) ks Hnd), IH.
    + reflexivity.
    + intros t' Ht'. apply Hall. now right.
    + apply Hall. now left.
Qed.

Lemma total_count_perm (l l' : list WeekCount) :
  Permutation l l' -> total_count l = total_count l'.
Proof. unfold total_count. induction 1; simpl; lia. Qed.

(** Every review row is counted exactly once: the counts of the analytics
    add up to the number of rows of the review table. *)
Theorem analytics_counts_add_up (tbl : Reviews) :
  total_count (load_monitoring_data tbl) = List.length tbl.
Proof.
  unfold load_monitoring_data.
  rewrite (total_count_perm _ _ (order_by_perm week_desc_status_asc _)).
  unfold total_count.
  - rewrite <- (count_rows_sum (group_keys tbl) tbl).
    + induction (group_keys tbl) as [|k ks IH]; simpl; [reflexivity|].
      now rewrite IH.
    + apply NoDup_nodup.
    + intros t Ht. unfold group_keys. apply nodup_In, in_map_iff. now exists t.
Qed.

(** ** The pivoted totals *)

Lemma duplicated_NoDup (l : list (Date * string)) :
  NoDup l -> duplicated l = false.
Proof.
  induction 1 as [|k l Hnin Hnd IH]; simpl; [reflexivity|].
  rewrite IH, orb_false_r.
  destruct (existsb (key_eqb k) l) eqn:E; [|reflexivity].
  apply existsb_exists in E as (k' & Hin & Hk).
  apply key_eqb_eq in Hk. now subst k'.
Qed.

Lemma load_monitoring_data_keys (tbl : Reviews) :
  NoDup (map pivot_key (load_monitoring_data tbl)).
Proof.
  unfold load_monitoring_data.
  eapply Permutation_NoDup.
  - apply Permutation_map. symmetry. apply order_by_perm.
  - rewrite map_map.
    rewrite (map_ext _ (fun k => k)) by (now intros [w st]).
    rewrite map_id. apply NoDup_nodup.
Qed.

Lemma pivot_key_week_count (tbl : Reviews) (k : Date * string) :
  pivot_key (week_count tbl k) = k.
Proof. now destruct k. Qed.

Lemma pivot_cell (tbl : Reviews) (w : Date) (c : string) :
  match option_map MERCHANT_COUNT
                   (find (fun x => key_eqb (pivot_key x) (w, c))
                         (load_monitoring_data tbl)) with
  | Some n => n
  | None => 0%nat
  end = count_rows tbl (w, c).
Proof.
  destruct (find _ _) as [x|] eqn:F; simpl.
  - apply find_some in F as [Hx Hk]. apply key_eqb_eq in Hk.
    apply load_monitoring_data_In in Hx as (t & _ & ->).
    rewrite pivot_key_week_count in Hk.
    unfold week_count. cbn [MERCHANT_COUNT]. now rewrite Hk.
  - unfold count_rows.
    destruct (filter _ tbl) as [|t rest] eqn:E; [reflexivity|].
    exfalso.
    assert (Ht : In t (filter (fun t0 => key_eqb (group_key t0) (w, c)) tbl))
      by (rewrite E; now left).
    apply filter_In in Ht as [Ht Hk].
    assert (Hx : In (week_count tbl (group_key t)) (load_monitoring_data tbl))
      by (apply load_monitoring_data_In; now exists t).
    pose proof (find_none _ _ F _ Hx) as Hn. cbv beta in Hn.
    rewrite pivot_key_week_count in Hn. congruence.
Qed.

Lemma Z_leb_total a b : (a <=? b) = false -> (b <=? a) = true.
Proof. rewrite Z.leb_gt, Z.leb_le. lia. Qed.

Lemma string_leb_total a b : String.leb a b = false -> String.leb b a = true.
Proof. destruct (String.leb_total a b); congruence. Qed.

(** The "Review Totals by Week" table.  With no review row the page shows
    the "no data" note.  Otherwise the pivot never fails: the table has one
    row per week in ascending order and one column per status in ascending
    order, each occurring once, and the cell of a week and a status is the
    number of review rows of that week and status, 0 where there is
    none. *)
Theorem review_totals_spec (tbl : Reviews) :
  match tbl with
  | [] => review_totals (load_monitoring_data tbl) = NoReviewData
  | _ :: _ =>
      exists p,
        review_totals (load_monitoring_data tbl) = TotalsByWeek p
        /\ Sorted Z.le (pivot_index p)
        /\ NoDup (pivot_index p)
        /\ (forall w, In w (pivot_index p) <->
                      exists t, In t tbl
                                /\ DATE_TRUNC_week (t_WEEK_START_DATE t) = w)
        /\ Sorted (fun a b => String.leb a b = true) (pivot_columns p)
        /\ NoDup (pivot_columns p)
        /\ (forall c, In c (pivot_columns p) <->
                      exists t, In t tbl /\ t_STATUS t = c)
        /\ pivot_values p
           = map (fun w => map (fun c => count_rows tbl (w, c))
                               (pivot_columns p))
                 (pivot_index p)
  end.
Proof.
  destruct tbl as [|t0 tbl0]; [reflexivity|].
  set (tbl := t0 :: tbl0).
  assert (Hx : In (week_count tbl (group_key t0)) (load_monitoring_data tbl))
    by (apply load_monitoring_data_In; exists t0; split; [now left|reflexivity]).
  unfold review_totals.
  destruct (load_monitoring_data tbl) as [|x rest] eqn:Edf; [easy|].
  rewrite <- Edf. unfold pivot.
  rewrite (duplicated_NoDup _ (load_monitoring_data_keys tbl)).
  eexists. split; [reflexivity|]. cbn [fillna pivot_index pivot_columns pivot_values].
  split; [|split; [|split; [|split; [|split; [|split]]]]].
  - eapply Sorted_weaken; [|apply order_by_sorted, Z_leb_total].
    intros a b H. now apply Z.leb_le.
  - eapply Permutation_NoDup;
      [symmetry; apply order_by_perm | apply NoDup_nodup].
  - intros w. rewrite order_by_In, nodup_In, in_map_iff. split.
    + intros (y & <- & Hy). apply load_monitoring_data_In in Hy as (t & Ht & ->).
      now exists t.
    + intros (t & Ht & <-). exists (week_count tbl (group_key t)).
      split; [reflexivity|]. apply load_monitoring_data_In. now exists t.
  - apply order_by_sorted, string_leb_total.
  - eapply Permutation_NoDup;
      [symmetry; apply order_by_perm | apply NoDup_nodup].
  - intros c. rewrite order_by_In, nodup_In, in_map_iff. split.
    + intros (y & <- & Hy). apply load_monitoring_data_In in Hy as (t & Ht & ->).
      now exists t.
    + intros (t & Ht & <-). exists (week_count tbl (group_key t)).
      split; [reflexivity|]. apply load_monitoring_data_In. now exists t.
  - rewrite map_map. apply map_ext. intros w.
    rewrite map_map. apply map_ext. intros c. apply pivot_cell.
Qed.

(** ** Escaping is lossless *)

(** The escaped text of a value, closed by a quote, reads back as the
    value, so two different merchants, notes or reviewers never give the
    same escaped text. *)
Theorem replace_quote_lossless (s1 s2 : string) :
  literals_from (Some EmptyString)
                (replace_quote s1 ++ String quote EmptyString)%string
  = Some [s1]
  /\ (replace_quote s1 = replace_quote s2 -> s1 = s2).
Proof.
  assert (H : forall s,
             literals_from (Some EmptyString)
                           (replace_quote s ++ String quote EmptyString)%string
             = Some [s]).
  { intros s.
    pose proof (literals_inside s EmptyString EmptyString eq_refl) as L.
    unfold q in L. simpl in L. exact L. }
  split; [apply H|].
  intros E. pose proof (H s1) as H1. rewrite E, H in H1. congruence.
Qed.

(** * The statement on its way to the table *)

Section ReadByEngine.
Local Open Scope string_scope.








Variable str_score : Z -> string.
Variable str_date : Date -> string.

Lemma merge_sql_segments (d : QueueRow) (st : StatusChoice) (notes u : string) :
  merge_sql str_score str_date d st notes u
  = sql_head ++ q ++ replace_quote (MERCHANT_DESCRIPTION d) ++ q
    ++ as_MERCHANT_DESCRIPTION ++ q ++ status_text st ++ q
    ++ as_STATUS ++ q ++ replace_quote notes ++ q
    ++ as_NOTES ++ q ++ u ++ q
    ++ as_REVIEWER_RISK_SCORE str_score d ++ q
    ++ str_date (WEEK_START_DATE d) ++ q ++ sql_tail.
Proof.
  unfold merge_sql, sql_head, as_MERCHANT_DESCRIPTION, as_STATUS, as_NOTES,
    as_REVIEWER_RISK_SCORE, sql_tail.
  rewrite !append_assoc. reflexivity.
Qed.



Variable dflt : ColumnDefault.


End ReadByEngine.


(** C2. Two submissions for the key of Acme Co: the first, 'Pending
    Investigation', is written; the second, 'Reviewed - Benign' with the
    notes "see :ticket", is not: [text()] takes [:ticket] for a bind
    parameter, [con.execute] raises for want of its value, and the one
    row of the key still holds the status, notes, reviewer and review
    date of the first submission. *)
Theorem second_submission_not_written :
  table_after
    (review_form_submit str_91 str_2024_01_01 DefaultCurrentTimestamp
                        (sub_now first_submission) (sub_user first_submission)
                        (sub_details first_submission)
                        (sub_status first_submission)
                        (sub_notes first_submission) [])
  = Some [{| t_MERCHANT_DESCRIPTION := "Acme Co";
             t_WEEK_START_DATE := 19723;
             t_STATUS := "Pending Investigation";
             t_NOTES := "asked for documents";
             t_REVIEWER := "ANALYST";
             t_RISK_SCORE := 91;
             t_REVIEW_DATE := Some 1704103200 |}]
  /\ review_form_submit str_91 str_2024_01_01 DefaultCurrentTimestamp
                        (sub_now third_submission) (sub_user third_submission)
                        (sub_details third_submission)
                        (sub_status third_submission)
                        (sub_notes third_submission)
                        [{| t_MERCHANT_DESCRIPTION := "Acme Co";
                            t_WEEK_START_DATE := 19723;
                            t_STATUS := "Pending Investigation";
                            t_NOTES := "asked for documents";
                            t_REVIEWER := "ANALYST";
                            t_RISK_SCORE := 91;
                            t_REVIEW_DATE := Some 1704103200 |}]
     = Raises [{| t_MERCHANT_DESCRIPTION := "Acme Co";
                  t_WEEK_START_DATE := 19723;
                  t_STATUS := "Pending Investigation";
                  t_NOTES := "asked for documents";
                  t_REVIEWER := "ANALYST";
                  t_RISK_SCORE := 91;
                  t_REVIEW_DATE := Some 1704103200 |}]
  /\ sub_status third_submission = Some Benign
  /\ sub_notes third_submission = "see :ticket"%string.
Proof. repeat split. Qed.

(** C10. The notes made of a backslash and a quote.  The quote is doubled
    as for any value, and read by quote doubling alone the statement
    holds its five literals; but the engine reads backslash-quote as an
    escaped quote, so the literal of the notes does not end at its
    closing quote and the statement ends inside a literal. *)
Theorem backslash_ends_literal_late :
  replace_quote notes_with_backslash
  = String backslash (String quote (String quote EmptyString))
  /\ literals (merge_sql str_91 str_2024_01_01 acme_entry Benign
                         notes_with_backslash (current_user "ANALYST"))
     = Some ["Acme Co"%string; "Reviewed - Benign"%string;
             notes_with_backslash; "ANALYST"%string; "2024-01-01"%string]
  /\ snowflake_tokens
       (merge_sql str_91 str_2024_01_01 acme_entry Benign
                  notes_with_backslash (current_user "ANALYST"))
     = None
  /\ review_form_submit str_91 str_2024_01_01 NoDefault 1704103200 "ANALYST"
                        acme_entry (Some Benign) notes_with_backslash []
     = EngineDecides.
Proof. repeat split. Qed.

(** ** A bind parameter in the notes *)

Lemma is_word_not_quote (c : ascii) : is_word c = true -> is_quote c = false.
Proof.
  destruct c as [b0 b1 b2 b3 b4 b5 b6 b7];
    destruct b0, b1, b2, b3, b4, b5, b6, b7; vm_compute;
    intros; (reflexivity || discriminate).
Qed.

Lemma replace_quote_app (a b : string) :
  replace_quote (a ++ b) = (replace_quote a ++ replace_quote b)%string.
Proof.
  induction a as [|c a IH]; simpl; [reflexivity|].
  destruct (is_quote c); simpl; now rewrite IH.
Qed.

Lemma bind_param_skip (a b : string) :
  (forall p, bind_param_from p b = true) ->
  forall p, bind_param_from p (a ++ b) = true.
Proof.
  intros H. induction a as [|c a IH]; intros p; simpl; [apply H|].
  rewrite IH. apply orb_true_r.
Qed.

Lemma bind_param_after_space (w1 w2 : ascii) (r : string) (p : option ascii) :
  is_word w1 = true -> is_word w2 = true ->
  bind_param_from p (" :" ++ String w1 (String w2 r)) = true.
Proof. intros H1 H2. cbn. now rewrite H1, H2. Qed.

Lemma colon_free_no_bind_param (s : string) :
  colon_free s = true -> forall p, bind_param_from p s = false.
Proof.
  induction s as [|c s IH]; intros H p; simpl; [reflexivity|].
  simpl in H. apply andb_true_iff in H as [Hc Hs].
  apply negb_true_iff in Hc. now rewrite Hc, IH.
Qed.

Section BindParameter.
Variable str_score : Z -> string.
Variable str_date : Date -> string.
Variable dflt : ColumnDefault.

(** Notes that hold, after a space, a colon followed by two word
    characters are never written: whatever the rest of the form and the
    table, the press raises and the table stays as it was. *)
Theorem bind_parameter_in_notes (now : Timestamp) (user : string)
        (details : QueueRow) (st : StatusChoice) (notes n1 n2 : string)
        (w1 w2 : ascii) (tbl : Reviews) :
  is_word w1 = true ->
  is_word w2 = true ->
  notes = (n1 ++ " :" ++ String w1 (String w2 n2))%string ->
  review_form_submit str_score str_date dflt now user details (Some st)
                     notes tbl
  = Raises tbl.
Proof.
  intros H1 H2 ->. unfold review_form_submit. cbv zeta.
  replace (text_bind_params _) with true; [reflexivity|].
  symmetry. unfold text_bind_params. rewrite merge_sql_segments.
  rewrite replace_quote_app. cbn [replace_quote append].
  rewrite (is_word_not_quote w1 H1), (is_word_not_quote w2 H2).
  change (is_quote " ") with false. change (is_quote ":") with false.
  cbv iota.
  rewrite !append_assoc.
  do 11 apply bind_param_skip. intros p. cbn [append].
  apply (bind_param_after_space w1 w2 _ p H1 H2).
Qed.
End BindParameter.

Lemma bind_parameter_in_notes_witness :
  is_word "t" = true
  /\ is_word "i" = true
  /\ notes_with_colon = ("see" ++ " :" ++ String "t" (String "i" "cket"))%string
  /\ review_form_submit str_91 str_2024_01_01 NoDefault 1704103200 "ANALYST"
                        acme_entry (Some Benign) notes_with_colon
                        [acme_review Reviewed_Benign 91 (Some 1704103200)]
     = Raises [acme_review Reviewed_Benign 91 (Some 1704103200)].
Proof.
  split; [reflexivity | split; [reflexivity | split; [reflexivity|]]].
  exact (bind_parameter_in_notes
           str_91 str_2024_01_01 NoDefault 1704103200 "ANALYST" acme_entry
           Benign notes_with_colon "see" "cket" "t" "i" _
           eq_refl eq_refl eq_refl).
Defined.

(** ** What a press leaves alone *)


Section PressFacts.
Variable str_score : Z -> string.
Variable str_date : Date -> string.
Variable dflt : ColumnDefault.







End PressFacts.










